(** * djmoney.money: the Django-aware [Money] value type

    A shallow embedding of [src/djmoney/money.py] and the properties of its
    arithmetic, rounding, quantization and configuration guards.

    The Python module is a thin layer over collaborators that live outside
    the repository: the base value type of py-moneyed ([DefaultMoney]), the
    [decimal] library, babel's currency metadata, Django's settings, its [F]
    query expressions and the exchange-rate application.  Those are taken as
    parameters, gathered in the record [Env]; every call that leaves the
    module is recorded in a trace, so that statements such as "the conversion
    service is not invoked" are statements about the embedded code. *)

From Stdlib Require Import ZArith Ascii String List.
From stdpp Require Import base option list gmap strings.

Local Open Scope Z_scope.

(** ** Python data *)

(** [decimal.Decimal] as its [as_tuple()]: sign, coefficient, exponent, or
    one of the special values. *)
Inductive Decimal :=
  | DFinite (negative : bool) (coefficient : N) (exponent : Z)
  | DInfinity (negative : bool)
  | DNaN (negative signaling : bool).

#[export] Instance Decimal_eq_dec : EqDecision Decimal.
Proof. solve_decision. Defined.

(** The rounding modes of [decimal]. *)
Inductive Rounding :=
  | ROUND_UP | ROUND_DOWN | ROUND_CEILING | ROUND_FLOOR
  | ROUND_HALF_UP | ROUND_HALF_DOWN | ROUND_HALF_EVEN | ROUND_05UP.

#[export] Instance Rounding_eq_dec : EqDecision Rounding.
Proof. solve_decision. Defined.

(** [moneyed.Currency]; two currencies are equal when their codes are. *)
Record Currency := mkCurrency { code : string }.

#[export] Instance Currency_eq_dec : EqDecision Currency.
Proof. solve_decision. Defined.

(** Values held by a formatting dictionary ([locale], [format],
    [currency_digits], ...). *)
Inductive FmtVal :=
  | FStr (s : string)
  | FBool (b : bool)
  | FInt (z : Z).

#[export] Instance FmtVal_eq_dec : EqDecision FmtVal.
Proof. solve_decision. Defined.

(** Dictionaries are mutable and shared: a [dict] value is a reference into
    a store of dictionaries. *)
Definition ref := positive.
Abbreviation dict := (gmap string FmtVal).
Abbreviation store := (gmap ref dict).

(** [types.MappingProxyType(d)] keeps a reference to [d] itself. *)
Record MappingProxyType := mkProxy { mapping : ref }.

#[export] Instance MappingProxyType_eq_dec : EqDecision MappingProxyType.
Proof. solve_decision. Defined.

(** An instance of [djmoney.money.Money].  [use_l10n] is the class attribute
    ([None]) unless it was set on the instance. *)
Record Money := mkMoney {
  amount : Decimal;
  currency : Currency;
  decimal_places : Z;
  format_options : option MappingProxyType;
  use_l10n : option bool
}.

#[export] Instance Money_eq_dec : EqDecision Money.
Proof. solve_decision. Defined.

(** An instance of any other class: the attributes this module looks at,
    each present or absent. *)
Record Object := mkObject {
  class_name : string;
  attr_currency : option Currency;
  attr_decimal_places : option Z
}.

#[export] Instance Object_eq_dec : EqDecision Object.
Proof. solve_decision. Defined.

Inductive PyVal :=
  | VNone
  | VNotImplemented
  | VBool (b : bool)
  | VInt (z : Z)
  | VStr (s : string)
  | VDecimal (d : Decimal)
  | VCurrency (c : Currency)
  | VDict (d : ref)
  | VMoney (m : Money)
  | VF (token : Object)         (* an instance of django.db.models.F *)
  | VObject (o : Object).       (* an instance of another class *)

#[export] Instance PyVal_eq_dec : EqDecision PyVal.
Proof. solve_decision. Defined.

(** ** Exceptions, external calls and the monad of the embedding *)

Inductive Exception :=
  | TypeError (msg : string)
  | AttributeError (msg : string)
  | KeyError (key : string)
  | ValueError (msg : string)
  | InvalidOperation
  | OtherError (cls msg : string).

Inductive Result (A : Type) :=
  | Ok (a : A)
  | Raise (e : Exception).
Arguments Ok {A} a.
Arguments Raise {A} e.

(** The collaborators of the module. *)
Inductive Collaborator :=
  | Exchange          (* djmoney.contrib.exchange.models.convert_money *)
  | Token             (* a reflected operator of an F instance *)
  | Base              (* a method of moneyed.Money reached through super() *)
  | DecimalLib        (* decimal.Decimal arithmetic and the built-in round *)
  | Babel.            (* babel.numbers and moneyed.l10n *)

#[export] Instance Collaborator_eq_dec : EqDecision Collaborator.
Proof. solve_decision. Defined.

Record Event := mkEvent {
  callee : Collaborator;
  method : string;
  arguments : list PyVal
}.

(** A computation returns a value or raises, and leaves the list of the
    external calls it made, oldest first. *)
Definition M (A : Type) : Type := list Event * Result A.

Definition trace {A} (m : M A) : list Event := fst m.
Definition outcome {A} (m : M A) : Result A := snd m.

Definition ret {A} (a : A) : M A := ([], Ok a).
Definition raise {A} (e : Exception) : M A := ([], Raise e).

Definition bind {A B} (m : M A) (f : A → M B) : M B :=
  match m with
  | (t, Ok a) => let '(t', r) := f a in (t ++ t', r)
  | (t, Raise e) => (t, Raise e)
  end.

(** One call of a collaborator, with the result it gave. *)
Definition call {A} (who : Collaborator) (name : string) (args : list PyVal)
    (r : Result A) : M A :=
  ([mkEvent who name args], r).

#[export] Instance M_ret : MRet M := @ret.
#[export] Instance M_bind : MBind M := λ A B f m, bind m f.

(** The calls of a trace that went to a given collaborator. *)
Definition calls_to (who : Collaborator) (t : list Event) : list Event :=
  filter (λ ev, callee ev = who) t.

(** ** The environment of the module

    Process-wide configuration and the collaborators.  A collaborator is a
    function from its arguments to a value or an exception; nothing is
    assumed about what it computes. *)
Record Env := mkEnv {
  (* django.conf.settings: an attribute is present or absent *)
  AUTO_CONVERT_MONEY : option bool;
  USE_L10N : option bool;
  LANGUAGE_CODE : string;
  (* djmoney.settings *)
  DECIMAL_PLACES : Z;
  MONEY_FORMAT : dict;
  (* djmoney.contrib.exchange.models *)
  convert_money : PyVal → Currency → Result PyVal;
  (* other.__radd__(self) and the like, on an F instance *)
  reflected : string → Object → Money → Result PyVal;
  (* moneyed.Money: the amount and currency its __init__ stores, and its
     other methods *)
  super_init : PyVal → PyVal → list (string * PyVal) → Result (Decimal * Currency);
  super_call : string → Money → list PyVal → Result PyVal;
  (* decimal and the built-in round *)
  decimal_new : PyVal → Result Decimal;
  decimal_pow : Decimal → Z → Result Decimal;
  decimal_quantize : Decimal → Decimal → Rounding → Result Decimal;
  builtin_round : Decimal → PyVal → Result PyVal;
  (* babel.numbers, django.utils.translation, moneyed.l10n *)
  get_currency_precision : Currency → Result Z;
  get_language : option string;
  to_locale : string → string;
  format_money : Money → dict → Result string
}.

(** ** Attribute access *)

(** [getattr(candidate, "decimal_places", None)]. *)
Definition getattr_decimal_places (candidate : PyVal) : option Z :=
  match candidate with
  | VMoney m => Some (decimal_places m)
  | VF o | VObject o => attr_decimal_places o
  | _ => None
  end.

Definition set_decimal_places (v : Z) (m : Money) : Money :=
  mkMoney (amount m) (currency m) v (format_options m) (use_l10n m).

(** [target.decimal_places = v].  Instances of classes take the attribute;
    the built-in values have no instance dictionary and refuse it.  A
    currency object takes it too, but the model keeps no extra attribute on
    currencies. *)
Definition setattr_decimal_places (target : PyVal) (v : Z) : Result PyVal :=
  match target with
  | VMoney m => Ok (VMoney (set_decimal_places v m))
  | VF o => Ok (VF (mkObject (class_name o) (attr_currency o) (Some v)))
  | VObject o => Ok (VObject (mkObject (class_name o) (attr_currency o) (Some v)))
  | VCurrency c => Ok (VCurrency c)
  | _ => Raise (AttributeError "decimal_places")
  end.

(** [value.currency]. *)
Definition getattr_currency (value : PyVal) : Result Currency :=
  match value with
  | VMoney m => Ok (currency m)
  | VF o | VObject o =>
      match attr_currency o with
      | Some c => Ok c
      | None => Raise (AttributeError "currency")
      end
  | _ => Raise (AttributeError "currency")
  end.

(** [max(selection)] on a non-empty list. *)
Definition py_max (first : Z) (rest : list Z) : Z := foldl Z.max first rest.

(** The name under which a rounding mode is passed around: the constants of
    [decimal] are strings. *)
Definition rounding_name (r : Rounding) : string :=
  match r with
  | ROUND_UP => "ROUND_UP" | ROUND_DOWN => "ROUND_DOWN"
  | ROUND_CEILING => "ROUND_CEILING" | ROUND_FLOOR => "ROUND_FLOOR"
  | ROUND_HALF_UP => "ROUND_HALF_UP" | ROUND_HALF_DOWN => "ROUND_HALF_DOWN"
  | ROUND_HALF_EVEN => "ROUND_HALF_EVEN" | ROUND_05UP => "ROUND_05UP"
  end.

(** [Decimal('0.1')]. *)
Definition Decimal_0_1 : Decimal := DFinite false 1 (-1).

(** ** Dictionaries and their read-only proxies *)
Module Mapping.

(** [d[k] = v] on a dictionary. *)
Definition dict_setitem (h : store) (d : ref) (k : string) (v : FmtVal) : store :=
  <[d := <[k := v]> (default ∅ (h !! d))]> h.

(** [d[k]] on a dictionary. *)
Definition dict_getitem (h : store) (d : ref) (k : string) : Result FmtVal :=
  match default ∅ (h !! d) !! k with
  | Some v => Ok v
  | None => Raise (KeyError k)
  end.

(** [p[k]] on a proxy reads the dictionary it wraps. *)
Definition proxy_getitem (h : store) (p : MappingProxyType) (k : string) : Result FmtVal :=
  dict_getitem h (mapping p) k.

(** [p[k] = v] on a proxy: the type has no item assignment. *)
Definition proxy_setitem (h : store) (p : MappingProxyType) (k : string) (v : FmtVal)
    : Result store :=
  Raise (TypeError "'mappingproxy' object does not support item assignment").

(** [del p[k]] on a proxy. *)
Definition proxy_delitem (h : store) (p : MappingProxyType) (k : string) : Result store :=
  Raise (TypeError "'mappingproxy' object does not support item deletion").

(** The items a proxy shows. *)
Definition proxy_items (h : store) (p : MappingProxyType) : dict :=
  default ∅ (h !! mapping p).

End Mapping.

(** ** The module [djmoney.money] *)
Section money.

Variable E : Env.

(** [maybe_convert(value, currency)], lines 188-196.  The [and] of the
    guard is short-circuit: [value.currency] is read only when the flag is
    set. *)
Definition maybe_convert (value : PyVal) (currency : Currency) : M PyVal :=
  if default false (AUTO_CONVERT_MONEY E) then
    match getattr_currency value with
    | Ok c =>
        if bool_decide (c ≠ currency)
        then call Exchange "convert_money" [value; VCurrency currency]
               (convert_money E value currency)
        else mret value
    | Raise e => raise e
    end
  else mret value.

(** [get_current_locale()], lines 180-185.  [or] takes the right operand
    when the left one is [None] or the empty string. *)
Definition get_current_locale : string :=
  to_locale E
    (match get_language E with
     | Some l => if bool_decide (l = "") then LANGUAGE_CODE E else l
     | None => LANGUAGE_CODE E
     end).

(** [Money.__init__], lines 31-41.  The two attributes of this class are
    set first, then the base class stores amount and currency. *)
Definition __init__ (amount currency : PyVal) (format_options : option ref)
    (decimal_places : option Z) (kwargs : list (string * PyVal)) : M Money :=
  let self_decimal_places :=
    match decimal_places with Some d => d | None => DECIMAL_PLACES E end in
  let self_format_options :=
    match format_options with Some d => Some (mkProxy d) | None => None end in
  '(a, c) ← call Base "__init__" [amount; currency] (super_init E amount currency kwargs);
  mret (mkMoney a c self_decimal_places self_format_options None).

(** [Money._copy_attributes], lines 43-60.  The Python method updates
    [target] in place and returns nothing; here it returns the updated
    target. *)
Definition _copy_attributes (self : Money) (source target : PyVal) : M PyVal :=
  let selection := omap getattr_decimal_places [VMoney self; source] in
  match selection with
  | [] => mret target
  | first :: rest => ([], setattr_decimal_places target (py_max first rest))
  end.

(** [Money.__add__], lines 62-68. *)
Definition __add__ (self : Money) (other : PyVal) : M PyVal :=
  match other with
  | VF token => call Token "__radd__" [other; VMoney self] (reflected E "__radd__" token self)
  | _ =>
      other ← maybe_convert other (currency self);
      result ← call Base "__add__" [VMoney self; other] (super_call E "__add__" self [other]);
      _copy_attributes self other result
  end.

(** [Money.__sub__], lines 70-76. *)
Definition __sub__ (self : Money) (other : PyVal) : M PyVal :=
  match other with
  | VF token => call Token "__rsub__" [other; VMoney self] (reflected E "__rsub__" token self)
  | _ =>
      other ← maybe_convert other (currency self);
      result ← call Base "__sub__" [VMoney self; other] (super_call E "__sub__" self [other]);
      _copy_attributes self other result
  end.

(** [Money.__mul__], lines 78-83. *)
Definition __mul__ (self : Money) (other : PyVal) : M PyVal :=
  match other with
  | VF token => call Token "__rmul__" [other; VMoney self] (reflected E "__rmul__" token self)
  | _ =>
      result ← call Base "__mul__" [VMoney self; other] (super_call E "__mul__" self [other]);
      _copy_attributes self other result
  end.

(** [Money.__truediv__], lines 85-91.  Only a result of this class gets
    the attributes. *)
Definition __truediv__ (self : Money) (other : PyVal) : M PyVal :=
  match other with
  | VF token =>
      call Token "__rtruediv__" [other; VMoney self] (reflected E "__rtruediv__" token self)
  | _ =>
      result ← call Base "__truediv__" [VMoney self; other]
                 (super_call E "__truediv__" self [other]);
      match result with
      | VMoney _ => _copy_attributes self other result
      | _ => mret result
      end
  end.

(** [Money.__rtruediv__], lines 93-96. *)
Definition __rtruediv__ (self : Money) (other : PyVal) : M PyVal :=
  raise (TypeError "Cannot divide non-Money by a Money instance.").

(** [Money.is_localized], lines 98-108.  The warnings filter around the
    read of the setting changes no value. *)
Definition is_localized (self : Money) : bool :=
  match use_l10n self with
  | None => default true (USE_L10N E)
  | Some b => b
  end.

(** [Money.__str__], lines 110-118: the options handed to the formatter.
    [{**a, **b}] lets the keys of [b] win. *)
Definition str_format_options (h : store) (self : Money) : dict :=
  let own :=
    match format_options self with
    | Some p => Mapping.proxy_items h p
    | None => ∅
    end in
  let merged := own ∪ MONEY_FORMAT E in
  let locale := get_current_locale in
  if bool_decide (locale = "") then merged else <["locale" := FStr locale]> merged.

Definition __str__ (h : store) (self : Money) : M string :=
  call Babel "format_money" [VMoney self] (format_money E self (str_format_options h self)).

(** [Money.__round__], lines 123-127; [n] is [None] by default. *)
Definition __round__ (self : Money) (n : PyVal) : M PyVal :=
  amount ← call DecimalLib "round" [VDecimal (amount self); n]
             (builtin_round E (amount self) n);
  new ← __init__ amount (VCurrency (currency self)) None None [];
  _copy_attributes self (VMoney self) (VMoney new).

(** [Money.round], lines 129-132; [ndigits] is [0] by default. *)
Definition round (self : Money) (ndigits : PyVal) : M PyVal :=
  new ← call Base "round" [VMoney self; ndigits] (super_call E "round" self [ndigits]);
  _copy_attributes self (VMoney self) new.

(** [Money.__pos__], [__neg__], [__abs__] and [__rmod__], lines 134-152. *)
Definition __pos__ (self : Money) : M PyVal :=
  new ← call Base "__pos__" [VMoney self] (super_call E "__pos__" self []);
  _copy_attributes self (VMoney self) new.

Definition __neg__ (self : Money) : M PyVal :=
  new ← call Base "__neg__" [VMoney self] (super_call E "__neg__" self []);
  _copy_attributes self (VMoney self) new.

Definition __abs__ (self : Money) : M PyVal :=
  new ← call Base "__abs__" [VMoney self] (super_call E "__abs__" self []);
  _copy_attributes self (VMoney self) new.

Definition __rmod__ (self : Money) (other : PyVal) : M PyVal :=
  new ← call Base "__rmod__" [VMoney self; other] (super_call E "__rmod__" self [other]);
  _copy_attributes self (VMoney self) new.

(** [__radd__ = __add__] and [__rmul__ = __mul__], lines 157-158: the
    reflected names are bound to the functions defined above. *)
Definition __radd__ : Money → PyVal → M PyVal := __add__.
Definition __rmul__ : Money → PyVal → M PyVal := __mul__.

(** [Money.quantize], lines 160-177; [exp] and [rounding] are [None] by
    default. *)
Definition quantize (self : Money) (exp : PyVal) (rounding : option Rounding) : M PyVal :=
  let rounding := match rounding with None => ROUND_HALF_UP | Some r => r end in
  exp ← match exp with
        | VNone =>
            digits ← call Babel "get_currency_precision" [VCurrency (currency self)]
                       (get_currency_precision E (currency self));
            call DecimalLib "__pow__" [VDecimal Decimal_0_1; VInt digits]
              (decimal_pow E Decimal_0_1 digits)
        | _ => call DecimalLib "Decimal" [exp] (decimal_new E exp)
        end;
  q ← call DecimalLib "quantize"
        [VDecimal (amount self); VDecimal exp; VStr (rounding_name rounding)]
        (decimal_quantize E (amount self) exp rounding);
  new ← __init__ (VDecimal q) (VCurrency (currency self)) None None [];
  mret (VMoney new).

End money.

(** ** babel's currency metadata *)
Module Babel.

(** [babel.numbers.get_currency_precision(currency)]:
    [precisions.get(currency, precisions['DEFAULT'])[0]] over the table of
    currency fractions, whose keys are currency codes, that is strings.  A
    key that is not a string equals none of them, so that the entry under
    [DEFAULT] answers; a dictionary cannot be hashed at all. *)
Definition get_currency_precision (fractions : gmap string Z) (DEFAULT : Z)
    (currency : PyVal) : Result Z :=
  match currency with
  | VStr code => Ok (default DEFAULT (fractions !! code))
  | VDict _ => Raise (TypeError "unhashable type: 'dict'")
  | _ => Ok DEFAULT
  end.

End Babel.

(** ** A reference environment

    One environment on which the embedding runs: the arithmetic of [decimal]
    in its default context (28 digits, half to even; the bounds on huge
    exponents are left out), the methods of py-moneyed's Money, which build
    their results through the constructor of the class at hand, babel's
    lookup of the currency digits, Django's [to_locale] and Django's
    defaults for the settings.  The theorems below hold in every
    environment; this one gives them concrete instances. *)
Module Reference.

Definition prec : Z := 28.
Definition Emax : Z := 999999.
Definition Etiny : Z := -1000026.

Definition signed (negative : bool) (coefficient : N) : Z :=
  if negative then - Z.of_N coefficient else Z.of_N coefficient.

Definition of_signed (z : Z) (exponent : Z) : Decimal :=
  DFinite (z <? 0) (Z.to_N (Z.abs z)) exponent.

(** The number of decimal digits of a positive integer (1 for 0). *)
Definition ndigits (c : Z) : Z :=
  if c <=? 0 then 1
  else
    let g := Z.log2 c * 30103 / 100000 in
    if 10 ^ (g + 1) <=? c then g + 2 else if 10 ^ g <=? c then g + 1 else g.

(** Whether the magnitude [q], cut with remainder [r] out of [d], goes up
    by one. *)
Definition round_up (mode : Rounding) (negative : bool) (q r d : Z) : bool :=
  match mode with
  | ROUND_DOWN => false
  | ROUND_UP => negb (r =? 0)
  | ROUND_CEILING => negb negative && negb (r =? 0)
  | ROUND_FLOOR => negative && negb (r =? 0)
  | ROUND_HALF_UP => d <=? 2 * r
  | ROUND_HALF_DOWN => d <? 2 * r
  | ROUND_HALF_EVEN => (d <? 2 * r) || ((d =? 2 * r) && Z.odd q)
  | ROUND_05UP => negb (r =? 0) && ((q mod 10 =? 0) || (q mod 10 =? 5))
  end.

(** The rounding of the context: a coefficient of more than 28 digits is cut
    to 28, half to even. *)
Definition finish (negative : bool) (c e : Z) : Decimal :=
  let nd := ndigits c in
  if nd <=? prec then DFinite negative (Z.to_N c) e
  else
    let k := nd - prec in
    let d := 10 ^ k in
    let q := c / d in
    let q' := if round_up ROUND_HALF_EVEN negative q (c mod d) d then q + 1 else q in
    if q' =? 10 ^ prec then DFinite negative (Z.to_N (10 ^ (prec - 1))) (e + k + 1)
    else DFinite negative (Z.to_N q') (e + k).

(** [a + b]. *)
Definition add (a b : Decimal) : Result Decimal :=
  match a, b with
  | DNaN _ true, _ | _, DNaN _ true => Raise InvalidOperation
  | DNaN s false, _ | _, DNaN s false => Ok (DNaN s false)
  | DInfinity sa, DInfinity sb =>
      if bool_decide (sa = sb) then Ok (DInfinity sa) else Raise InvalidOperation
  | DInfinity s, DFinite _ _ _ | DFinite _ _ _, DInfinity s => Ok (DInfinity s)
  | DFinite sa ca ea, DFinite sb cb eb =>
      let e := Z.min ea eb in
      let z := signed sa ca * 10 ^ (ea - e) + signed sb cb * 10 ^ (eb - e) in
      Ok (finish (if z =? 0 then sa && sb else z <? 0) (Z.abs z) e)
  end.

(** [-a], [+a] and [abs(a)]: a zero comes out positive. *)
Definition neg (a : Decimal) : Result Decimal :=
  match a with
  | DNaN _ true => Raise InvalidOperation
  | DNaN s false => Ok (DNaN s false)
  | DInfinity s => Ok (DInfinity (negb s))
  | DFinite s c e => Ok (finish (if (c =? 0)%N then false else negb s) (Z.of_N c) e)
  end.

Definition pos (a : Decimal) : Result Decimal :=
  match a with
  | DNaN _ true => Raise InvalidOperation
  | DNaN s false => Ok (DNaN s false)
  | DInfinity s => Ok (DInfinity s)
  | DFinite s c e => Ok (finish (if (c =? 0)%N then false else s) (Z.of_N c) e)
  end.

Definition absolute (a : Decimal) : Result Decimal :=
  match a with
  | DFinite true _ _ | DInfinity true => neg a
  | _ => pos a
  end.

Definition copy_negate (a : Decimal) : Decimal :=
  match a with
  | DFinite s c e => DFinite (negb s) c e
  | DInfinity s => DInfinity (negb s)
  | DNaN s g => DNaN (negb s) g
  end.

(** [a - b]: the checks for NaN first, then [a + (-b)]. *)
Definition sub (a b : Decimal) : Result Decimal :=
  match a, b with
  | DNaN _ _, _ | _, DNaN _ _ => add a b
  | _, _ => add a (copy_negate b)
  end.

(** [a * b]. *)
Definition mul (a b : Decimal) : Result Decimal :=
  match a, b with
  | DNaN _ true, _ | _, DNaN _ true => Raise InvalidOperation
  | DNaN s false, _ | _, DNaN s false => Ok (DNaN s false)
  | DInfinity sa, DInfinity sb => Ok (DInfinity (xorb sa sb))
  | DInfinity sa, DFinite sb c _ | DFinite sb c _, DInfinity sa =>
      if (c =? 0)%N then Raise InvalidOperation else Ok (DInfinity (xorb sa sb))
  | DFinite sa ca ea, DFinite sb cb eb =>
      Ok (finish (xorb sa sb) (Z.of_N ca * Z.of_N cb) (ea + eb))
  end.

(** An exact quotient gets as close to the ideal exponent as its trailing
    zeros allow. *)
Fixpoint strip (fuel : nat) (coeff exp ideal : Z) : Z * Z :=
  match fuel with
  | O => (coeff, exp)
  | S fuel' =>
      if (exp <? ideal) && (coeff mod 10 =? 0)
      then strip fuel' (coeff / 10) (exp + 1) ideal
      else (coeff, exp)
  end.

(** [a / b]. *)
Definition div (a b : Decimal) : Result Decimal :=
  match a, b with
  | DNaN _ true, _ | _, DNaN _ true => Raise InvalidOperation
  | DNaN s false, _ | _, DNaN s false => Ok (DNaN s false)
  | DInfinity _, DInfinity _ => Raise InvalidOperation
  | DInfinity sa, DFinite sb _ _ => Ok (DInfinity (xorb sa sb))
  | DFinite sa _ _, DInfinity sb => Ok (DFinite (xorb sa sb) 0 Etiny)
  | DFinite sa ca ea, DFinite sb cb eb =>
      let s := xorb sa sb in
      if (cb =? 0)%N then
        if (ca =? 0)%N then Raise InvalidOperation
        else Raise (OtherError "DivisionByZero" "")
      else if (ca =? 0)%N then Ok (finish s 0 (ea - eb))
      else
        let x := Z.of_N ca in
        let y := Z.of_N cb in
        let shift := ndigits y - ndigits x + prec + 1 in
        let exp := ea - eb - shift in
        let num := if 0 <=? shift then x * 10 ^ shift else x in
        let den := if 0 <=? shift then y else y * 10 ^ (- shift) in
        let coeff := num / den in
        if num mod den =? 0 then
          let '(coeff', exp') := strip (Z.to_nat (ea - eb - exp)) coeff exp (ea - eb) in
          Ok (finish s coeff' exp')
        else Ok (finish s (if coeff mod 5 =? 0 then coeff + 1 else coeff) exp)
  end.

(** The coefficient of [(c, e)] at the exponent [e'], rounded by [mode]. *)
Definition rescale (mode : Rounding) (negative : bool) (c : N) (e e' : Z) : Z :=
  if e' <=? e then Z.of_N c * 10 ^ (e - e')
  else
    let d := 10 ^ (e' - e) in
    let q := Z.of_N c / d in
    if round_up mode negative q (Z.of_N c mod d) d then q + 1 else q.

(** [a.quantize(exp, rounding)]. *)
Definition quantize (a exp : Decimal) (mode : Rounding) : Result Decimal :=
  match a, exp with
  | DNaN _ true, _ | _, DNaN _ true => Raise InvalidOperation
  | DNaN s false, _ | _, DNaN s false => Ok (DNaN s false)
  | DInfinity s, DInfinity _ => Ok (DInfinity s)
  | DInfinity _, DFinite _ _ _ | DFinite _ _ _, DInfinity _ => Raise InvalidOperation
  | DFinite s c e, DFinite _ _ e' =>
      if negb ((Etiny <=? e') && (e' <=? Emax)) then Raise InvalidOperation
      else
        let c' := rescale mode s c e e' in
        if c' <? 10 ^ prec then Ok (DFinite s (Z.to_N c') e') else Raise InvalidOperation
  end.

(** [a ** n] for the powers of ten and for exact non-negative powers; the
    module asks for [Decimal('0.1') ** digits] only. *)
Definition pow (a : Decimal) (n : Z) : Result Decimal :=
  match a with
  | DFinite s 1%N e => Ok (DFinite (s && Z.odd n) 1 (e * n))
  | DFinite s c e =>
      if 0 <=? n
      then let c' := (Z.of_N c) ^ n in
           if c' <? 10 ^ prec then Ok (DFinite (s && Z.odd n) (Z.to_N c') (e * n))
           else Raise InvalidOperation
      else Raise InvalidOperation
  | _ => Raise InvalidOperation
  end.

(** *** Decimal literals *)

Definition is_digit (c : ascii) : bool :=
  (48 <=? Z.of_nat (nat_of_ascii c)) && (Z.of_nat (nat_of_ascii c) <=? 57).

Definition is_space (c : ascii) : bool :=
  let n := Z.of_nat (nat_of_ascii c) in
  ((9 <=? n) && (n <=? 13)) || ((28 <=? n) && (n <=? 32)).

Definition lower (c : ascii) : ascii :=
  let n := nat_of_ascii c in
  if (65 <=? Z.of_nat n) && (Z.of_nat n <=? 90) then ascii_of_nat (n + 32) else c.

Definition upper (c : ascii) : ascii :=
  let n := nat_of_ascii c in
  if (97 <=? Z.of_nat n) && (Z.of_nat n <=? 122) then ascii_of_nat (n - 32) else c.

Definition number_of (l : list ascii) : Z :=
  foldl (λ acc c, 10 * acc + (Z.of_nat (nat_of_ascii c) - 48)) 0 l.

(** The part before the first character that satisfies [P], and the part
    after it when there is one. *)
Fixpoint split_at (P : ascii → bool) (l : list ascii) : list ascii * option (list ascii) :=
  match l with
  | [] => ([], None)
  | c :: l' =>
      if P c then ([], Some l')
      else let '(before, after) := split_at P l' in (c :: before, after)
  end.

Fixpoint drop_spaces (l : list ascii) : list ascii :=
  match l with
  | c :: l' => if is_space c then drop_spaces l' else l
  | [] => []
  end.

Definition strip_spaces (l : list ascii) : list ascii :=
  reverse (drop_spaces (reverse (drop_spaces l))).

Definition take_sign (l : list ascii) : bool * list ascii :=
  match l with
  | c :: l' =>
      if bool_decide (c = "-"%char) then (true, l')
      else if bool_decide (c = "+"%char) then (false, l')
      else (false, l)
  | [] => (false, [])
  end.

Definition is_empty (l : list ascii) : bool :=
  match l with [] => true | _ => false end.

Definition parse_exponent (l : list ascii) : option Z :=
  let '(s, ds) := take_sign l in
  if negb (is_empty ds) && forallb is_digit ds
  then Some (if s then - number_of ds else number_of ds)
  else None.

(** A sign, digits with an optional point, an optional exponent; or one of
    the names of the special values, in any case. *)
Definition parse (text : string) : option Decimal :=
  let l := filter (λ c, c ≠ "_"%char) (strip_spaces (list_ascii_of_string text)) in
  let '(s, body) := take_sign l in
  let name := string_of_list_ascii (lower <$> body) in
  if bool_decide (name = "inf") || bool_decide (name = "infinity") then Some (DInfinity s)
  else
    match lower <$> body with
    | "n"%char :: "a"%char :: "n"%char :: payload =>
        if forallb is_digit payload then Some (DNaN s false) else None
    | "s"%char :: "n"%char :: "a"%char :: "n"%char :: payload =>
        if forallb is_digit payload then Some (DNaN s true) else None
    | _ =>
        let '(mantissa, expo) :=
          split_at (λ c, bool_decide (c = "e"%char) || bool_decide (c = "E"%char)) body in
        let '(int_part, frac) := split_at (λ c, bool_decide (c = "."%char)) mantissa in
        let frac_part := default [] frac in
        if negb (is_empty int_part && is_empty frac_part)
           && forallb is_digit int_part && forallb is_digit frac_part
        then
          let c := Z.to_N (number_of (int_part ++ frac_part)) in
          let e := - Z.of_nat (length frac_part) in
          match expo with
          | None => Some (DFinite s c e)
          | Some ex =>
              match parse_exponent ex with
              | Some z => Some (DFinite s c (e + z))
              | None => None
              end
          end
        else None
    end.

(** [Decimal(x)]. *)
Definition new (x : PyVal) : Result Decimal :=
  match x with
  | VDecimal d => Ok d
  | VInt z => Ok (of_signed z 0)
  | VBool b => Ok (DFinite false (if b then 1 else 0) 0)
  | VStr s =>
      match parse s with
      | Some d => Ok d
      | None => Raise InvalidOperation
      end
  | _ => Raise (TypeError "conversion to Decimal is not supported")
  end.

(** py-moneyed's [force_decimal(x)]: [x] when it is a decimal,
    [Decimal(str(x))] otherwise. *)
Definition force_decimal (x : PyVal) : Result Decimal :=
  match x with
  | VDecimal d => Ok d
  | VInt z => Ok (of_signed z 0)
  | VStr s =>
      match parse s with
      | Some d => Ok d
      | None => Raise InvalidOperation
      end
  | _ => Raise InvalidOperation
  end.

(** [round(a, n)]: an integer without [n], a decimal with it, half to
    even in both cases. *)
Definition round (a : Decimal) (n : PyVal) : Result PyVal :=
  let to_exponent (k : Z) :=
    match quantize a (DFinite false 1 (- k)) ROUND_HALF_EVEN with
    | Ok d => Ok (VDecimal d)
    | Raise e => Raise e
    end in
  match n with
  | VNone =>
      match a with
      | DFinite s c e => Ok (VInt (if s then - rescale ROUND_HALF_EVEN s c e 0
                                   else rescale ROUND_HALF_EVEN s c e 0))
      | DInfinity _ => Raise (OtherError "OverflowError" "cannot round an infinity")
      | DNaN _ _ => Raise (ValueError "cannot round a NaN")
      end
  | VInt k => to_exponent k
  | VBool b => to_exponent (if b then 1 else 0)
  | _ => Raise (TypeError "Second argument to round should be integral")
  end.

(** *** The base type *)

Definition default_places : Z := 2.

(** What [self.__class__(amount=a, currency=c)] builds. *)
Definition fresh (a : Decimal) (c : Currency) : PyVal :=
  VMoney (mkMoney a c default_places None None).

Definition lift (c : Currency) (r : Result Decimal) : Result PyVal :=
  match r with
  | Ok a => Ok (fresh a c)
  | Raise e => Raise e
  end.

(** [other == 0]. *)
Definition equals_zero (other : PyVal) : bool :=
  match other with
  | VInt 0 | VBool false | VDecimal (DFinite _ 0%N _) => true
  | _ => false
  end.

(** [-other] for an operand that is not a Money. *)
Definition negated (other : PyVal) : Result PyVal :=
  match other with
  | VInt k => Ok (VInt (- k))
  | VBool b => Ok (VInt (if b then -1 else 0))
  | VDecimal d =>
      match neg d with
      | Ok d' => Ok (VDecimal d')
      | Raise e => Raise e
      end
  | _ => Raise (TypeError "bad operand type for unary -")
  end.

(** [Money.__add__] of the base type. *)
Definition base_add (self : Money) (other : PyVal) : Result PyVal :=
  if equals_zero other then Ok (VMoney self)
  else
    match other with
    | VMoney o =>
        if bool_decide (currency self = currency o)
        then lift (currency self) (add (amount self) (amount o))
        else Raise (TypeError
               "Cannot add or subtract two Money instances with different currencies.")
    | _ => Ok VNotImplemented
    end.

(** [Money.__sub__] of the base type is [self.__add__(-other)], which comes
    back to the [__neg__] and [__add__] of this module: the negated Money
    has the precision hint of [other], the sum that of both, and for a
    number that is not zero the write on [NotImplemented] fails. *)
Definition base_sub (self : Money) (other : PyVal) : Result PyVal :=
  match other with
  | VMoney o =>
      match neg (amount o) with
      | Ok negated_amount =>
          if bool_decide (currency self = currency o)
          then
            match add (amount self) negated_amount with
            | Ok a => Ok (VMoney (mkMoney a (currency self)
                                    (Z.max (decimal_places self) (decimal_places o))
                                    None None))
            | Raise e => Raise e
            end
          else Raise (TypeError
                 "Cannot add or subtract two Money instances with different currencies.")
      | Raise e => Raise e
      end
  | _ =>
      match negated other with
      | Ok v => if equals_zero v then Ok (VMoney self)
                else Raise (AttributeError "decimal_places")
      | Raise e => Raise e
      end
  end.

Definition bind_decimal (r : Result Decimal) (f : Decimal → Result Decimal) : Result Decimal :=
  match r with
  | Ok d => f d
  | Raise e => Raise e
  end.

(** The methods of py-moneyed's Money used by the module. *)
Definition base (name : string) (self : Money) (args : list PyVal) : Result PyVal :=
  match args with
  | [] =>
      if bool_decide (name = "__neg__") then lift (currency self) (neg (amount self))
      else if bool_decide (name = "__pos__") then lift (currency self) (pos (amount self))
      else if bool_decide (name = "__abs__") then lift (currency self) (absolute (amount self))
      else Raise (AttributeError name)
  | [other] =>
      if bool_decide (name = "__add__") then base_add self other
      else if bool_decide (name = "__sub__") then base_sub self other
      else if bool_decide (name = "__mul__") then
        match other with
        | VMoney _ => Raise (TypeError "Cannot multiply two Money instances.")
        | _ => lift (currency self) (bind_decimal (force_decimal other) (mul (amount self)))
        end
      else if bool_decide (name = "__truediv__") then
        match other with
        | VMoney o =>
            if bool_decide (currency self = currency o)
            then match div (amount self) (amount o) with
                 | Ok d => Ok (VDecimal d)
                 | Raise e => Raise e
                 end
            else Raise (TypeError "Cannot divide two different currencies.")
        | _ => lift (currency self) (bind_decimal (force_decimal other) (div (amount self)))
        end
      else if bool_decide (name = "__rmod__") then
        match other with
        | VMoney _ => Raise (TypeError "Invalid __rmod__ operation")
        | _ =>
            lift (currency self)
              (bind_decimal (force_decimal other) (λ d,
                 bind_decimal (mul d (amount self)) (λ p, div p (DFinite false 100 0))))
        end
      else if bool_decide (name = "round") then
        match other with
        | VInt k =>
            lift (currency self)
              (quantize (amount self) (DFinite false 1 (- k)) ROUND_HALF_EVEN)
        | VNone =>
            lift (currency self) (quantize (amount self) (DFinite false 1 0) ROUND_HALF_EVEN)
        | _ => Raise (TypeError "bad operand type for unary -")
        end
      else Raise (AttributeError name)
  | _ => Raise (TypeError name)
  end.

(** The currencies this environment has registered. *)
Definition registered : list string :=
  ["USD"; "EUR"; "JPY"; "BHD"; "GBP"; "CHF"; "CAD"; "AUD"; "CNY"; "SEK"; "NOK"; "DKK";
   "PLN"; "CZK"; "HUF"; "RUB"; "INR"; "BRL"; "MXN"; "KWD"; "KRW"; "TND"; "XXX"].

(** The constructor of the base type: the amount through [force_decimal],
    the currency as it is or looked up by its upper-cased code. *)
Definition init (amount currency : PyVal) (kwargs : list (string * PyVal))
    : Result (Decimal * Currency) :=
  match force_decimal amount with
  | Ok a =>
      match currency with
      | VCurrency c => Ok (a, c)
      | VStr s =>
          let code := string_of_list_ascii (upper <$> list_ascii_of_string s) in
          if bool_decide (code ∈ registered) then Ok (a, mkCurrency code)
          else Raise (OtherError "CurrencyDoesNotExist" code)
      | _ => Raise (OtherError "CurrencyDoesNotExist" "")
      end
  | Raise e => Raise e
  end.

(** *** Currency digits, locales, expressions, exchange *)

(** A part of babel's table of currency fractions; its [DEFAULT] is 2. *)
Definition fractions : gmap string Z :=
  {[ "JPY" := 0; "KRW" := 0; "BHD" := 3; "KWD" := 3; "TND" := 3 ]}.

(** [get_currency_precision(self.currency)] as the module calls it, with
    the currency object. *)
Definition precision (c : Currency) : Result Z :=
  Babel.get_currency_precision fractions 2 (VCurrency c).

(** [str.title()] on letters, digits and dashes. *)
Fixpoint title (after_letter : bool) (l : list ascii) : list ascii :=
  match l with
  | [] => []
  | c :: l' =>
      let letter := negb (bool_decide (lower c = upper c)) in
      (if after_letter then lower c else upper c) :: title letter l'
  end.

(** [django.utils.translation.to_locale]: [en-us] becomes [en_US],
    [sr-latn] becomes [sr_Latn]. *)
Definition locale_of (language : string) : string :=
  let original := list_ascii_of_string language in
  let '(lang, rest) := split_at (λ c, bool_decide (c = "-"%char)) (lower <$> original) in
  match rest with
  | None | Some [] => string_of_list_ascii ((lower <$> take 3 original) ++ drop 3 original)
  | Some rest =>
      let '(country, tail) := split_at (λ c, bool_decide (c = "-"%char)) rest in
      let country := if 2 <? Z.of_nat (length country) then title false country
                     else upper <$> country in
      let tail := match tail with
                  | None | Some [] => []
                  | Some t => "-"%char :: t
                  end in
      string_of_list_ascii (lang ++ "_"%char :: country ++ tail)
  end.

(** An F instance answers a reflected operator with a combined
    expression. *)
Definition combined (name : string) (token : Object) (self : Money) : Result PyVal :=
  Ok (VObject (mkObject "CombinedExpression" None None)).

(** No exchange backend is configured. *)
Definition exchange (value : PyVal) (c : Currency) : Result PyVal :=
  Raise (OtherError "MissingRate" "").

Definition env : Env :=
  {| AUTO_CONVERT_MONEY := None;
     USE_L10N := None;
     LANGUAGE_CODE := "en-us";
     DECIMAL_PLACES := default_places;
     MONEY_FORMAT := ∅;
     convert_money := exchange;
     reflected := combined;
     super_init := init;
     super_call := base;
     decimal_new := new;
     decimal_pow := pow;
     decimal_quantize := quantize;
     builtin_round := round;
     get_currency_precision := precision;
     get_language := None;
     to_locale := locale_of;
     format_money := λ _ _, Ok "" |}.

(** The same environment with the auto-convert flag set to [flag]. *)
Definition env_with_auto_convert (flag : bool) : Env :=
  {| AUTO_CONVERT_MONEY := Some flag;
     USE_L10N := None;
     LANGUAGE_CODE := "en-us";
     DECIMAL_PLACES := default_places;
     MONEY_FORMAT := ∅;
     convert_money := exchange;
     reflected := combined;
     super_init := init;
     super_call := base;
     decimal_new := new;
     decimal_pow := pow;
     decimal_quantize := quantize;
     builtin_round := round;
     get_currency_precision := precision;
     get_language := None;
     to_locale := locale_of;
     format_money := λ _ _, Ok "" |}.

Definition USD : Currency := mkCurrency "USD".
Definition EUR : Currency := mkCurrency "EUR".
Definition JPY : Currency := mkCurrency "JPY".

(** [Decimal('10.125')], [Decimal('2.5')] and a formatting dictionary at
    reference 1. *)
Definition d10_125 : Decimal := DFinite false 10125 (-3).
Definition d2_5 : Decimal := DFinite false 25 (-1).
Definition options : store := {[ 1%positive := {[ "locale" := FStr "de_DE" ]} ]}.

(** [Money(Decimal('10.125'), USD, format_options=<the dictionary at 1>,
    decimal_places=3)], [Money(Decimal('2.5'), USD, decimal_places=4)] and
    [Money(Decimal('2.5'), EUR, decimal_places=4)]. *)
Definition price : Money := mkMoney d10_125 USD 3 (Some (mkProxy 1%positive)) None.
Definition fee : Money := mkMoney d2_5 USD 4 None None.
Definition fee_eur : Money := mkMoney d2_5 EUR 4 None None.

End Reference.

(** ** The reference environment with an exchange service

    The reference environment with an exchange service whose rates are all
    1, a process-wide format and an active language. *)
Module Scaling.

Definition base : string → Money → list PyVal → Result PyVal := Reference.base.

(** [convert_money(value, currency)] at the rate 1: a new Money of the
    target currency, built through the constructor. *)
Definition exchange (value : PyVal) (c : Currency) : Result PyVal :=
  match value with
  | VMoney m => Ok (Reference.fresh (amount m) c)
  | _ => Raise (AttributeError "amount")
  end.

(** The environment with the auto-convert setting [flag]. *)
Definition env (flag : option bool) : Env :=
  {| AUTO_CONVERT_MONEY := flag;
     USE_L10N := None;
     LANGUAGE_CODE := "en-us";
     DECIMAL_PLACES := Reference.default_places;
     MONEY_FORMAT := {[ "format" := FStr "#,##0.00" ; "locale" := FStr "en_US" ]};
     convert_money := exchange;
     reflected := Reference.combined;
     super_init := Reference.init;
     super_call := base;
     decimal_new := Reference.new;
     decimal_pow := Reference.pow;
     decimal_quantize := Reference.quantize;
     builtin_round := Reference.round;
     get_currency_precision := Reference.precision;
     get_language := Some "de";
     to_locale := Reference.locale_of;
     format_money := λ _ _, Ok "" |}.

End Scaling.

(** [isinstance(other, F)]. *)
Definition isinstance_F (other : PyVal) : bool :=
  match other with
  | VF _ => true
  | _ => false
  end.

(** Whether a computation returned a value. *)
Definition returned {A} (m : M A) : bool :=
  match outcome m with
  | Ok _ => true
  | Raise _ => false
  end.

(** What the specification asks of a result [r] of rounding [m]. *)
Definition carries_metadata_of (m : Money) (r : PyVal) : Prop :=
  ∃ new, r = VMoney new ∧
    decimal_places new = decimal_places m ∧ format_options new = format_options m.

(** The computation [run] is the single call of the reflected operator
    [name] of [token] on [m], and its outcome is what that call gave. *)
Definition delegates E (run : M PyVal) (name : string) (token : Object) (m : Money) : Prop :=
  outcome run = reflected E name token m ∧
  trace run = [mkEvent Token name [VF token; VMoney m]].

(** [value.currency != currency], where [value] has a currency at all. *)
Definition currency_differs (value : PyVal) (c : Currency) : bool :=
  match getattr_currency value with
  | Ok cv => bool_decide (cv ≠ c)
  | Raise _ => false
  end.

(** The built-in values: they have no instance dictionary, so that setting
    an attribute on them raises. *)
Definition refuses_attributes (v : PyVal) : bool :=
  match v with
  | VNone | VNotImplemented | VBool _ | VInt _ | VStr _ | VDecimal _ | VDict _ => true
  | VCurrency _ | VMoney _ | VF _ | VObject _ => false
  end.

(** [isinstance(result, self.__class__)]. *)
Definition isinstance_Money (v : PyVal) : bool :=
  match v with
  | VMoney _ => true
  | _ => false
  end.

(** The precision hint [_copy_attributes] selects for [self] and [source]. *)
Definition selected_places (self : Money) (source : PyVal) : Z :=
  match getattr_decimal_places source with
  | Some p => Z.max (decimal_places self) p
  | None => decimal_places self
  end.

(** A chain of additions [((acc + m1) + m2) + ...], each evaluated by
    [Money.__add__] and each returning a Money: [Added E acc ms r] says that
    the chain over [ms] started from [acc] ends with [r]. *)
Inductive Added (E : Env) : Money → list Money → Money → Prop :=
  | Added_nil (acc : Money) : Added E acc [] acc
  | Added_cons (acc m acc' r : Money) (ms : list Money) :
      outcome (__add__ E acc (VMoney m)) = Ok (VMoney acc') →
      Added E acc' ms r →
      Added E acc (m :: ms) r.

(** The format options of the instance itself, as [__str__] reads them:
    the items its proxy shows at that moment, or nothing. *)
Definition own_options (h : store) (self : Money) : dict :=
  match format_options self with
  | Some p => Mapping.proxy_items h p
  | None => ∅
  end.

(** * Properties *)

(** ** The monad *)

Ltac unfold_monad :=
  unfold mbind, M_bind, mret, M_ret, bind, call, ret, raise, outcome, trace in *.

Lemma bind_call_ok {A B} who name args (a : A) (f : A → M B) :
  call who name args (Ok a) ≫= f = (mkEvent who name args :: trace (f a), outcome (f a)).
Proof. unfold_monad. by destruct (f a). Qed.

Lemma bind_call_raise {A B} who name args e (f : A → M B) :
  call who name args (Raise e : Result A) ≫= f = ([mkEvent who name args], Raise e).
Proof. reflexivity. Qed.

Lemma bind_ret {A B} (a : A) (f : A → M B) : mret a ≫= f = f a.
Proof. unfold_monad. by destruct (f a). Qed.

Lemma outcome_bind_call {A B} who name args (a : A) (f : A → M B) :
  outcome (call who name args (Ok a) ≫= f) = outcome (f a).
Proof. by rewrite bind_call_ok. Qed.

Lemma trace_bind_call {A B} who name args (r : Result A) (f : A → M B) :
  trace (call who name args r ≫= f) =
  mkEvent who name args :: match r with Ok a => trace (f a) | Raise _ => [] end.
Proof. destruct r; [by rewrite bind_call_ok | reflexivity]. Qed.

(** ** [_copy_attributes] *)

(** The first candidate is [self], whose attribute is always there: the
    selection is never empty and its maximum is written to the target. *)
Lemma copy_attributes_selection (self : Money) (source target : PyVal) :
  _copy_attributes self source target =
  ([], setattr_decimal_places target
         (match getattr_decimal_places source with
          | Some p => Z.max (decimal_places self) p
          | None => decimal_places self
          end)).
Proof.
  unfold _copy_attributes. simpl.
  by destruct (getattr_decimal_places source).
Qed.

Lemma copy_attributes_money (self other target : Money) :
  _copy_attributes self (VMoney other) (VMoney target) =
  mret (VMoney (set_decimal_places (Z.max (decimal_places self) (decimal_places other)) target)).
Proof. by rewrite copy_attributes_selection. Qed.

Lemma copy_attributes_self (self target : Money) :
  _copy_attributes self (VMoney self) (VMoney target) =
  mret (VMoney (set_decimal_places (decimal_places self) target)).
Proof. rewrite copy_attributes_money. by rewrite Z.max_id. Qed.

(** ** [maybe_convert] *)

Lemma maybe_convert_disabled E (v : PyVal) (c : Currency) :
  default false (AUTO_CONVERT_MONEY E) = false → maybe_convert E v c = mret v.
Proof. intros Hoff. unfold maybe_convert. by rewrite Hoff. Qed.

Lemma maybe_convert_same_currency E (B : Money) (c : Currency) :
  currency B = c → maybe_convert E (VMoney B) c = mret (VMoney B).
Proof.
  intros Hc. unfold maybe_convert.
  destruct (default false (AUTO_CONVERT_MONEY E)); [|done].
  simpl. rewrite bool_decide_eq_false_2; [done|]. by intros Hne.
Qed.

(** ** Addition and subtraction *)

(** C1.  For two Money values [A] and [B] of the same currency, whatever the
    auto-convert flag says, [A + B] and [A - B] return the Money that the
    base type computed, with [decimal_places] set to the maximum of the
    precision hints of [A] and [B]. *)
Theorem add_sub_decimal_places E (A B : Money) :
  currency A = currency B →
  (∀ r, super_call E "__add__" A [VMoney B] = Ok (VMoney r) →
     outcome (__add__ E A (VMoney B)) =
       Ok (VMoney (set_decimal_places (Z.max (decimal_places A) (decimal_places B)) r))) ∧
  (∀ r, super_call E "__sub__" A [VMoney B] = Ok (VMoney r) →
     outcome (__sub__ E A (VMoney B)) =
       Ok (VMoney (set_decimal_places (Z.max (decimal_places A) (decimal_places B)) r))).
Proof.
  intros Hcur. split; intros r Hbase.
  - unfold __add__.
    rewrite maybe_convert_same_currency by done.
    rewrite bind_ret, Hbase, outcome_bind_call.
    by rewrite copy_attributes_money.
  - unfold __sub__.
    rewrite maybe_convert_same_currency by done.
    rewrite bind_ret, Hbase, outcome_bind_call.
    by rewrite copy_attributes_money.
Qed.

Lemma add_sub_decimal_places_witness :
  currency Reference.price = currency Reference.fee ∧
  outcome (__add__ Reference.env Reference.price (VMoney Reference.fee)) =
    Ok (VMoney (mkMoney (DFinite false 12625 (-3)) Reference.USD 4 None None)) ∧
  outcome (__sub__ Reference.env Reference.price (VMoney Reference.fee)) =
    Ok (VMoney (mkMoney (DFinite false 7625 (-3)) Reference.USD 4 None None)).
Proof.
  destruct (add_sub_decimal_places Reference.env Reference.price Reference.fee eq_refl)
    as [Hadd Hsub].
  split; [reflexivity|]. split.
  - exact (Hadd _ eq_refl).
  - exact (Hsub _ eq_refl).
Defined.

(** ** Rounding *)

(** Rounding a value that has format options, with the built-in [round] and
    with the method: both return a Money, with the precision hint of the
    original and without its format options. *)
Lemma round_drops_format_options :
  (∃ r, outcome (__round__ Reference.env Reference.price (VInt 2)) = Ok r ∧
        ¬ carries_metadata_of Reference.price r) ∧
  (∃ r, outcome (round Reference.env Reference.price (VInt 2)) = Ok r ∧
        ¬ carries_metadata_of Reference.price r).
Proof.
  split; eexists; (split; [reflexivity|]);
    intros (new & Hnew & _ & Hfmt); injection Hnew as <-; discriminate Hfmt.
Qed.

(** C2 (amended).  Rounding keeps the precision hint and nothing else.  The
    built-in [round(m, n)] builds a new Money from the rounded amount: it has
    the [decimal_places] of [m] and no format options.  The method
    [m.round(n)] returns the Money of the base type with [decimal_places]
    set to that of [m] and its other attributes as the base type left them.
    This holds for every [n], non-negative or not. *)
Theorem round_keeps_decimal_places E (m : Money) (n : PyVal) :
  (∀ rounded a c,
     builtin_round E (amount m) n = Ok rounded →
     super_init E rounded (VCurrency (currency m)) [] = Ok (a, c) →
     outcome (__round__ E m n) = Ok (VMoney (mkMoney a c (decimal_places m) None None))) ∧
  (∀ new,
     super_call E "round" m [n] = Ok (VMoney new) →
     outcome (round E m n) = Ok (VMoney (set_decimal_places (decimal_places m) new))).
Proof.
  split.
  - intros rounded a c Hround Hinit. unfold __round__, __init__.
    rewrite Hround, outcome_bind_call, Hinit.
    unfold_monad. simpl. by rewrite Z.max_id.
  - intros new Hbase. unfold round.
    rewrite Hbase, outcome_bind_call.
    by rewrite copy_attributes_self.
Qed.

Lemma round_keeps_decimal_places_witness :
  outcome (__round__ Reference.env Reference.price (VInt 2)) =
    Ok (VMoney (mkMoney (DFinite false 1012 (-2)) Reference.USD 3 None None)) ∧
  outcome (round Reference.env Reference.price (VInt 2)) =
    Ok (VMoney (mkMoney (DFinite false 1012 (-2)) Reference.USD 3 None None)).
Proof.
  destruct (round_keeps_decimal_places Reference.env Reference.price (VInt 2))
    as [Hbuiltin Hmethod].
  split.
  - exact (Hbuiltin _ _ _ eq_refl eq_refl).
  - exact (Hmethod _ eq_refl).
Defined.

(** ** Quantization *)

(** In the reference environment the exponent handed to [quantize] for a
    currency of [digits] minor-unit digits is [1E-digits], and a finite
    amount quantized to a finite exponent has that exponent. *)
Lemma reference_pow_tenth (digits : Z) :
  Reference.pow Decimal_0_1 digits = Ok (DFinite false 1 (- digits)).
Proof.
  unfold Reference.pow, Decimal_0_1. simpl.
  by replace (-1 * digits) with (- digits) by lia.
Qed.

Lemma reference_quantize_exponent (sa s : bool) (ca c : N) (ea e : Z) (q : Decimal)
    (mode : Rounding) :
  Reference.quantize (DFinite sa ca ea) (DFinite s c e) mode = Ok q →
  ∃ c', q = DFinite sa c' e.
Proof.
  unfold Reference.quantize. intros Hq.
  repeat match type of Hq with (if ?b then _ else _) = _ => destruct b end;
    try discriminate.
  injection Hq as <-. eauto.
Qed.

(** Quantizing [m] with neither exponent nor rounding mode takes the digits
    that the lookup of the currency metadata returns, quantizes the amount
    to the exponent [Decimal('0.1') ** digits] with [ROUND_HALF_UP], and
    builds the result through the constructor with no metadata: its
    [decimal_places] is the process-wide default and its [format_options]
    is unset, whatever those of [m] are. *)
Lemma quantize_default E (m : Money) (digits : Z) (exp q a : Decimal) (c : Currency) :
  get_currency_precision E (currency m) = Ok digits →
  decimal_pow E Decimal_0_1 digits = Ok exp →
  decimal_quantize E (amount m) exp ROUND_HALF_UP = Ok q →
  super_init E (VDecimal q) (VCurrency (currency m)) [] = Ok (a, c) →
  outcome (quantize E m VNone None) = Ok (VMoney (mkMoney a c (DECIMAL_PLACES E) None None)) ∧
  calls_to DecimalLib (trace (quantize E m VNone None)) =
    [ mkEvent DecimalLib "__pow__" [VDecimal Decimal_0_1; VInt digits];
      mkEvent DecimalLib "quantize" [VDecimal (amount m); VDecimal exp; VStr "ROUND_HALF_UP"] ].
Proof.
  intros Hdigits Hpow Hquant Hinit. unfold quantize, __init__.
  rewrite Hdigits, bind_call_ok, Hpow. simpl.
  rewrite Hquant. unfold_monad. simpl. rewrite Hinit. simpl.
  split; reflexivity.
Qed.

Lemma quantize_default_witness :
  outcome (quantize Reference.env Reference.price VNone None) =
    Ok (VMoney (mkMoney (DFinite false 1013 (-2)) Reference.USD 2 None None)) ∧
  calls_to DecimalLib (trace (quantize Reference.env Reference.price VNone None)) =
    [ mkEvent DecimalLib "__pow__" [VDecimal Decimal_0_1; VInt 2];
      mkEvent DecimalLib "quantize"
        [VDecimal Reference.d10_125; VDecimal (DFinite false 1 (-2)); VStr "ROUND_HALF_UP"] ].
Proof.
  exact (quantize_default Reference.env Reference.price 2 (DFinite false 1 (-2))
           (DFinite false 1013 (-2)) (DFinite false 1013 (-2)) Reference.USD
           eq_refl eq_refl eq_refl eq_refl).
Defined.

(** The lookup of babel finds the digits of a currency under its code and
    misses them under the currency object: the object equals no key of the
    table, and the default answers. *)
Lemma babel_lookup (fractions : gmap string Z) (DEFAULT : Z) (c : Currency) :
  Babel.get_currency_precision fractions DEFAULT (VStr (code c))
    = Ok (default DEFAULT (fractions !! code c)) ∧
  Babel.get_currency_precision fractions DEFAULT (VCurrency c) = Ok DEFAULT.
Proof. split; reflexivity. Qed.

(** C3.  [quantize] does not reach the digits of the currency.  Line 172
    hands babel the currency object where its table is keyed by the code,
    so the default of two digits answers for every currency.  The yen has no
    minor unit (the table holds 0 under [JPY]), and quantizing 10.125 yen
    with no exponent gives 10.13, with two digits, where the docstring of
    [quantize] promises the exponent of the currency.  The metadata of the
    result is the default one, as specified. *)
Theorem quantize_yen_keeps_two_digits :
  Babel.get_currency_precision Reference.fractions 2 (VStr (code Reference.JPY)) = Ok 0 ∧
  get_currency_precision Reference.env Reference.JPY = Ok 2 ∧
  quantize Reference.env (mkMoney Reference.d10_125 Reference.JPY 3 None None) VNone None =
    ([ mkEvent Babel "get_currency_precision" [VCurrency Reference.JPY];
       mkEvent DecimalLib "__pow__" [VDecimal Decimal_0_1; VInt 2];
       mkEvent DecimalLib "quantize"
         [VDecimal Reference.d10_125; VDecimal (DFinite false 1 (-2)); VStr "ROUND_HALF_UP"];
       mkEvent Base "__init__"
         [VDecimal (DFinite false 1013 (-2)); VCurrency Reference.JPY] ],
     Ok (VMoney (mkMoney (DFinite false 1013 (-2)) Reference.JPY 2 None None))).
Proof. split; [|split]; vm_compute; reflexivity. Qed.

(** ** Reverse division *)

(** C4.  [Money.__rtruediv__] raises the type error for every Money and
    every operand: it calls no collaborator and never returns a value. *)
Theorem rtruediv_raises (m : Money) (x : PyVal) :
  __rtruediv__ m x = ([], Raise (TypeError "Cannot divide non-Money by a Money instance.")) ∧
  returned (__rtruediv__ m x) = false.
Proof. split; reflexivity. Qed.

(** ** Deferred expressions *)

(** C5.  With an F instance as the other operand, [+], [-], [*] and [/] on a
    Money return what the token's [__radd__], [__rsub__], [__rmul__] and
    [__rtruediv__] return for that Money.  The call of the token is the only
    one made: neither the base type, nor the decimal library, nor the
    exchange service is reached, and the result is handed back as it is. *)
Theorem deferred_operand_delegates E (m : Money) (token : Object) :
  delegates E (__add__ E m (VF token)) "__radd__" token m ∧
  delegates E (__sub__ E m (VF token)) "__rsub__" token m ∧
  delegates E (__mul__ E m (VF token)) "__rmul__" token m ∧
  delegates E (__truediv__ E m (VF token)) "__rtruediv__" token m.
Proof. repeat split. Qed.

(** ** The conversion guard *)

(** C6.  With the auto-convert flag false or absent, [maybe_convert] returns
    its argument and calls nothing; adding two Money values then hands the
    right operand, as it is, to the addition of the base type, whatever the
    two currencies are, and the exchange service is not called.  In every
    environment the exchange service is called by [maybe_convert] exactly
    when the flag is set and the currency of the value differs from the
    given one. *)
Theorem conversion_guard E (v : PyVal) (c : Currency) :
  (default false (AUTO_CONVERT_MONEY E) = false →
     maybe_convert E v c = ([], Ok v) ∧
     ∀ A B : Money,
       __add__ E A (VMoney B) =
         (result ← call Base "__add__" [VMoney A; VMoney B]
                     (super_call E "__add__" A [VMoney B]);
          _copy_attributes A (VMoney B) result) ∧
       calls_to Exchange (trace (__add__ E A (VMoney B))) = []) ∧
  calls_to Exchange (trace (maybe_convert E v c)) =
    (if default false (AUTO_CONVERT_MONEY E) && currency_differs v c
     then [mkEvent Exchange "convert_money" [v; VCurrency c]]
     else []).
Proof.
  split.
  - intros Hoff. split; [by apply maybe_convert_disabled|].
    intros A B. unfold __add__.
    rewrite maybe_convert_disabled by done. rewrite bind_ret.
    split; [done|].
    rewrite trace_bind_call.
    destruct (super_call E "__add__" A [VMoney B]) as [result|e]; [|reflexivity].
    rewrite copy_attributes_selection. reflexivity.
  - unfold maybe_convert, currency_differs.
    destruct (default false (AUTO_CONVERT_MONEY E)); [|reflexivity].
    destruct (getattr_currency v) as [cv|e]; [|reflexivity].
    simpl. destruct (bool_decide (cv ≠ c)); reflexivity.
Qed.

Lemma conversion_guard_witness :
  default false (AUTO_CONVERT_MONEY Reference.env) = false ∧
  currency Reference.price ≠ currency Reference.fee_eur ∧
  maybe_convert Reference.env (VMoney Reference.fee_eur) Reference.USD =
    ([], Ok (VMoney Reference.fee_eur)) ∧
  calls_to Exchange (trace (__add__ Reference.env Reference.price (VMoney Reference.fee_eur))) = [].
Proof.
  destruct (conversion_guard Reference.env (VMoney Reference.fee_eur) Reference.USD)
    as [Hoff _].
  destruct (Hoff eq_refl) as [Hsame Hadd].
  split; [reflexivity|]. split; [discriminate|]. split; [exact Hsame|].
  exact (proj2 (Hadd Reference.price Reference.fee_eur)).
Defined.

(** With the flag set, a value of another currency goes to the exchange
    service, and a value without a currency (the [0] that [sum] starts from)
    stops at the attribute read. *)
Example conversion_called_when_enabled :
  maybe_convert (Reference.env_with_auto_convert true) (VMoney Reference.fee_eur) Reference.USD =
    call Exchange "convert_money" [VMoney Reference.fee_eur; VCurrency Reference.USD]
      (Reference.exchange (VMoney Reference.fee_eur) Reference.USD) ∧
  maybe_convert (Reference.env_with_auto_convert true) (VInt 0) Reference.USD =
    raise (AttributeError "currency").
Proof. split; reflexivity. Qed.

(** ** Construction *)

(** Reading the items of a dictionary after [d[k] = v]. *)
Lemma dict_getitem_setitem (h : store) (d : ref) (k : string) (v : FmtVal) :
  Mapping.dict_getitem (Mapping.dict_setitem h d k v) d k = Ok v.
Proof.
  unfold Mapping.dict_getitem, Mapping.dict_setitem.
  rewrite lookup_insert_eq. simpl. by rewrite lookup_insert_eq.
Qed.

(** The specification asks that what the stored mapping shows does not
    change when the caller's dictionary does.  Here a Money is built
    with the dictionary at reference 1, which holds [locale = de_DE]; after
    the caller sets [locale] to [fr_FR] in that dictionary, the stored
    mapping shows [fr_FR]. *)
Lemma format_options_follow_the_dictionary :
  ∃ m p,
    outcome (__init__ Reference.env (VInt 5) (VStr "USD") (Some 1%positive) None []) = Ok m ∧
    format_options m = Some p ∧
    Mapping.proxy_getitem Reference.options p "locale" = Ok (FStr "de_DE") ∧
    Mapping.proxy_getitem
      (Mapping.dict_setitem Reference.options 1%positive "locale" (FStr "fr_FR")) p "locale"
      = Ok (FStr "fr_FR").
Proof. do 2 eexists. repeat split; reflexivity. Qed.

(** C7 (amended).  A Money built with a dictionary [d] as format options
    stores a read-only view of [d], not a copy: item assignment and deletion
    through the stored mapping raise a type error, and a read through it is
    a read of [d] as it is at that moment, so that an item the caller sets
    in [d] later is what the stored mapping shows. *)
Theorem format_options_is_view E (amount currency : PyVal) (d : ref) (dp : option Z)
    (kwargs : list (string * PyVal)) (m : Money) :
  outcome (__init__ E amount currency (Some d) dp kwargs) = Ok m →
  ∃ p, format_options m = Some p ∧
    (∀ h k v, ∃ msg, Mapping.proxy_setitem h p k v = Raise (TypeError msg)) ∧
    (∀ h k, ∃ msg, Mapping.proxy_delitem h p k = Raise (TypeError msg)) ∧
    (∀ h k, Mapping.proxy_getitem h p k = Mapping.dict_getitem h d k) ∧
    (∀ h k v, Mapping.proxy_getitem (Mapping.dict_setitem h d k v) p k = Ok v).
Proof.
  unfold __init__. intros Hnew.
  destruct (super_init E amount currency kwargs) as [[a c]|e]; [|discriminate].
  unfold_monad. simpl in Hnew. injection Hnew as <-.
  exists (mkProxy d). repeat split; eauto.
  intros h k v. apply dict_getitem_setitem.
Qed.

Lemma format_options_is_view_witness :
  ∃ p, format_options (mkMoney (DFinite false 5 0) Reference.USD 2 (Some (mkProxy 1%positive)) None)
         = Some p ∧
    Mapping.proxy_getitem
      (Mapping.dict_setitem Reference.options 1%positive "locale" (FStr "fr_FR")) p "locale"
      = Ok (FStr "fr_FR").
Proof.
  destruct (format_options_is_view Reference.env (VInt 5) (VStr "USD") 1%positive None []
              (mkMoney (DFinite false 5 0) Reference.USD 2 (Some (mkProxy 1%positive)) None)
              eq_refl)
    as (p & Hp & _ & _ & _ & Hset).
  exists p. split; [exact Hp | apply Hset].
Defined.



(** ** Localization *)

(** C9.  [is_localized] is the override of the instance when there is one;
    without it, it is the process-wide [USE_L10N], and true when the
    settings have no such attribute. *)
Theorem is_localized_cases E (m : Money) :
  (∀ b, use_l10n m = Some b → is_localized E m = b) ∧
  (use_l10n m = None →
     (∀ b, USE_L10N E = Some b → is_localized E m = b) ∧
     (USE_L10N E = None → is_localized E m = true)).
Proof.
  unfold is_localized. split.
  - by intros b ->.
  - intros ->. split; [intros b|]; by intros ->.
Qed.

Lemma is_localized_cases_witness :
  is_localized Reference.env
    (mkMoney Reference.d2_5 Reference.USD 2 None (Some false)) = false ∧
  is_localized Reference.env Reference.fee = true.
Proof.
  split.
  - exact (proj1 (is_localized_cases Reference.env
                    (mkMoney Reference.d2_5 Reference.USD 2 None (Some false))) false eq_refl).
  - exact (proj2 (proj2 (is_localized_cases Reference.env Reference.fee) eq_refl) eq_refl).
Defined.

(** * Further properties of the module *)

(** ** Outcomes and traces of a sequence *)

Lemma outcome_bind {A B} (m : M A) (f : A → M B) :
  outcome (m ≫= f) =
  match outcome m with
  | Ok a => outcome (f a)
  | Raise e => Raise e
  end.
Proof. destruct m as [t [a|e]]; unfold_monad; simpl; [by destruct (f a)|done]. Qed.

Lemma trace_bind {A B} (m : M A) (f : A → M B) :
  trace (m ≫= f) =
  trace m ++ match outcome m with
             | Ok a => trace (f a)
             | Raise _ => []
             end.
Proof.
  destruct m as [t [a|e]]; unfold_monad; simpl; [by destruct (f a)|].
  by rewrite app_nil_r.
Qed.

Lemma outcome_call {A} who name args (r : Result A) : outcome (call who name args r) = r.
Proof. reflexivity. Qed.

Lemma trace_call {A} who name args (r : Result A) :
  trace (call who name args r) = [mkEvent who name args].
Proof. reflexivity. Qed.

Lemma outcome_pair {A} (t : list Event) (x : Result A) : outcome ((t, x) : M A) = x.
Proof. reflexivity. Qed.

Lemma outcome_mret {A} (a : A) : outcome (mret a : M A) = Ok a.
Proof. reflexivity. Qed.

Lemma calls_to_app who (t1 t2 : list Event) :
  calls_to who (t1 ++ t2) = calls_to who t1 ++ calls_to who t2.
Proof. unfold calls_to. apply filter_app. Qed.

(** ** The operators on an operand that is not an F instance *)

Lemma add_unfold E (self : Money) (other : PyVal) :
  isinstance_F other = false →
  __add__ E self other =
    (o ← maybe_convert E other (currency self);
     result ← call Base "__add__" [VMoney self; o] (super_call E "__add__" self [o]);
     _copy_attributes self o result).
Proof. by destruct other. Qed.

Lemma sub_unfold E (self : Money) (other : PyVal) :
  isinstance_F other = false →
  __sub__ E self other =
    (o ← maybe_convert E other (currency self);
     result ← call Base "__sub__" [VMoney self; o] (super_call E "__sub__" self [o]);
     _copy_attributes self o result).
Proof. by destruct other. Qed.

Lemma mul_unfold E (self : Money) (other : PyVal) :
  isinstance_F other = false →
  __mul__ E self other =
    (result ← call Base "__mul__" [VMoney self; other] (super_call E "__mul__" self [other]);
     _copy_attributes self other result).
Proof. by destruct other. Qed.

Lemma truediv_unfold E (self : Money) (other : PyVal) :
  isinstance_F other = false →
  __truediv__ E self other =
    (result ← call Base "__truediv__" [VMoney self; other]
                (super_call E "__truediv__" self [other]);
     if isinstance_Money result then _copy_attributes self other result else mret result).
Proof.
  intros Hother. destruct other; try done; unfold __truediv__;
    (destruct (super_call E "__truediv__" self _) as [[]|]; reflexivity).
Qed.

(** ** What [_copy_attributes] writes *)

Lemma copy_attributes_outcome (self : Money) (source target : PyVal) :
  outcome (_copy_attributes self source target) =
  setattr_decimal_places target (selected_places self source).
Proof. by rewrite copy_attributes_selection. Qed.

Lemma copy_attributes_trace (self : Money) (source target : PyVal) :
  trace (_copy_attributes self source target) = [].
Proof. by rewrite copy_attributes_selection. Qed.

Lemma setattr_money_inv (target : PyVal) (v : Z) (r : Money) :
  setattr_decimal_places target v = Ok (VMoney r) →
  ∃ t, target = VMoney t ∧ r = set_decimal_places v t.
Proof. destruct target; simpl; intros H; try discriminate; injection H as <-; eauto. Qed.

Lemma selected_places_ge (self : Money) (source : PyVal) :
  decimal_places self ≤ selected_places self source.
Proof. unfold selected_places. destruct (getattr_decimal_places source); lia. Qed.

(** X1.  On a Money target [_copy_attributes] writes one attribute: the
    result is the target with [decimal_places] replaced by the larger of the
    hints of [self] and of [source] (that of [self] alone when [source] has
    none).  Amount, currency, format options and localization override of
    the target stay, and the hint the target had before plays no part. *)
Theorem copy_attributes_frame (self target : Money) (source : PyVal) :
  ∃ r, outcome (_copy_attributes self source (VMoney target)) = Ok (VMoney r) ∧
    amount r = amount target ∧ currency r = currency target ∧
    format_options r = format_options target ∧ use_l10n r = use_l10n target ∧
    decimal_places r = selected_places self source ∧
    (∀ p, outcome (_copy_attributes self source (VMoney (set_decimal_places p target)))
          = Ok (VMoney r)).
Proof.
  exists (set_decimal_places (selected_places self source) target).
  rewrite copy_attributes_outcome. repeat split.
  intros p. by rewrite copy_attributes_outcome.
Qed.

Lemma propagated_inv (self : Money) (o : PyVal) who name args (rb : Result PyVal) (r : Money) :
  outcome (result ← call who name args rb; _copy_attributes self o result) = Ok (VMoney r) →
  ∃ t, rb = Ok (VMoney t) ∧ r = set_decimal_places (selected_places self o) t.
Proof.
  rewrite outcome_bind, outcome_call.
  destruct rb as [t|e]; [|discriminate].
  rewrite copy_attributes_outcome. intros (t0 & -> & ->)%setattr_money_inv. eauto.
Qed.

(** ** Precision through the operators *)

(** X2.  A binary operator never lowers the precision hint: whenever [+],
    [-], [*] or [/] on [self], with an operand that is not an F instance,
    returns a Money, its [decimal_places] is at least that of [self].  This
    holds in every environment, with or without conversion. *)
Theorem precision_never_decreases E (self : Money) (other : PyVal) :
  isinstance_F other = false →
  ∀ r, outcome (__add__ E self other) = Ok (VMoney r) ∨
       outcome (__sub__ E self other) = Ok (VMoney r) ∨
       outcome (__mul__ E self other) = Ok (VMoney r) ∨
       outcome (__truediv__ E self other) = Ok (VMoney r) →
       decimal_places self ≤ decimal_places r.
Proof.
  intros Hother r [H|[H|[H|H]]].
  - rewrite add_unfold, outcome_bind in H by done.
    destruct (outcome (maybe_convert E other (currency self))) as [o|e]; [|discriminate].
    apply propagated_inv in H as (t & _ & ->). apply selected_places_ge.
  - rewrite sub_unfold, outcome_bind in H by done.
    destruct (outcome (maybe_convert E other (currency self))) as [o|e]; [|discriminate].
    apply propagated_inv in H as (t & _ & ->). apply selected_places_ge.
  - rewrite mul_unfold in H by done.
    apply propagated_inv in H as (t & _ & ->). apply selected_places_ge.
  - rewrite truediv_unfold, outcome_bind, outcome_call in H by done.
    destruct (super_call E "__truediv__" self [other]) as [t|e]; [|discriminate].
    destruct (isinstance_Money t) eqn:Ht.
    + rewrite copy_attributes_outcome in H.
      apply setattr_money_inv in H as (t0 & _ & ->). apply selected_places_ge.
    + rewrite outcome_mret in H. injection H as ->. discriminate Ht.
Qed.

Lemma precision_never_decreases_witness :
  isinstance_F (VInt 3) = false ∧
  outcome (__mul__ (Scaling.env None) Reference.price (VInt 3)) =
    Ok (VMoney (mkMoney (DFinite false 30375 (-3)) Reference.USD 3 None None)) ∧
  decimal_places Reference.price ≤ 3.
Proof.
  split; [reflexivity|]. split; [reflexivity|].
  exact (precision_never_decreases (Scaling.env None) Reference.price (VInt 3) eq_refl
           (mkMoney (DFinite false 30375 (-3)) Reference.USD 3 None None)
           (or_intror (or_intror (or_introl eq_refl)))).
Defined.

(** X3.  Multiplication and division take no part in currency conversion:
    whatever the auto-convert flag and the operand, [*] and [/] never call
    the exchange service. *)
Theorem scaling_never_converts E (self : Money) (other : PyVal) :
  calls_to Exchange (trace (__mul__ E self other)) = [] ∧
  calls_to Exchange (trace (__truediv__ E self other)) = [].
Proof.
  destruct (isinstance_F other) eqn:Hother.
  - destruct other; try discriminate. split; reflexivity.
  - rewrite mul_unfold, truediv_unfold by done.
    rewrite !trace_bind, !outcome_call, !trace_call.
    split.
    + destruct (super_call E "__mul__" self [other]) as [t|e]; [|reflexivity].
      by rewrite copy_attributes_trace.
    + destruct (super_call E "__truediv__" self [other]) as [t|e]; [|reflexivity].
      destruct (isinstance_Money t); [by rewrite copy_attributes_trace|reflexivity].
Qed.

(** X4.  Multiplying or dividing by a value that has no [decimal_places]
    attribute (a number) keeps the precision hint of [self]: when the base
    type returns a Money, the operator returns that Money with the
    [decimal_places] of [self]. *)
Theorem scaling_keeps_precision E (self : Money) (other : PyVal) :
  isinstance_F other = false →
  getattr_decimal_places other = None →
  (∀ t, super_call E "__mul__" self [other] = Ok (VMoney t) →
        outcome (__mul__ E self other) =
          Ok (VMoney (set_decimal_places (decimal_places self) t))) ∧
  (∀ t, super_call E "__truediv__" self [other] = Ok (VMoney t) →
        outcome (__truediv__ E self other) =
          Ok (VMoney (set_decimal_places (decimal_places self) t))).
Proof.
  intros Hother Hnone. split; intros t Hbase.
  - rewrite mul_unfold, outcome_bind, outcome_call, Hbase by done.
    rewrite copy_attributes_outcome. unfold selected_places. by rewrite Hnone.
  - rewrite truediv_unfold, outcome_bind, outcome_call, Hbase by done.
    change (isinstance_Money (VMoney t)) with true. cbv iota.
    rewrite copy_attributes_outcome. unfold selected_places. by rewrite Hnone.
Qed.

Lemma scaling_keeps_precision_witness :
  isinstance_F (VInt 5) = false ∧
  getattr_decimal_places (VInt 5) = None ∧
  outcome (__mul__ (Scaling.env None) Reference.price (VInt 5)) =
    Ok (VMoney (mkMoney (DFinite false 50625 (-3)) Reference.USD 3 None None)) ∧
  outcome (__truediv__ (Scaling.env None) Reference.price (VInt 5)) =
    Ok (VMoney (mkMoney (DFinite false 2025 (-3)) Reference.USD 3 None None)).
Proof.
  destruct (scaling_keeps_precision (Scaling.env None) Reference.price (VInt 5)
              eq_refl eq_refl) as [Hmul Hdiv].
  assert (super_call (Scaling.env None) "__mul__" Reference.price [VInt 5] =
          Ok (VMoney (mkMoney (DFinite false 50625 (-3)) Reference.USD 2 None None)))
    as Hproduct by (vm_compute; reflexivity).
  assert (super_call (Scaling.env None) "__truediv__" Reference.price [VInt 5] =
          Ok (VMoney (mkMoney (DFinite false 2025 (-3)) Reference.USD 2 None None)))
    as Hquotient by (vm_compute; reflexivity).
  split; [reflexivity|]. split; [reflexivity|]. split.
  - exact (Hmul _ Hproduct).
  - exact (Hdiv _ Hquotient).
Defined.

(** ** Results of the base type that are not a Money *)

(** X5.  [+] writes the precision hint on whatever the base type returned,
    without looking at its class.  When that is a built-in value, as the
    [NotImplemented] with which the base type answers an operand that is
    neither a Money nor zero, the write fails: [+], and the reflected [+]
    with it, raises an attribute error and returns nothing.  (Stated with
    the auto-convert flag off, so that the operand reaches the base
    type.) *)
Theorem plain_result_raises E (self : Money) (other t : PyVal) :
  isinstance_F other = false →
  default false (AUTO_CONVERT_MONEY E) = false →
  super_call E "__add__" self [other] = Ok t →
  refuses_attributes t = true →
  ∃ msg, outcome (__add__ E self other) = Raise (AttributeError msg) ∧
         outcome (__radd__ E self other) = Raise (AttributeError msg).
Proof.
  intros Hother Hoff Hbase Ht. exists "decimal_places". unfold __radd__.
  rewrite add_unfold, maybe_convert_disabled, bind_ret by done.
  rewrite outcome_bind, outcome_call, Hbase, copy_attributes_outcome.
  by destruct t.
Qed.

Lemma plain_result_raises_witness :
  isinstance_F (VStr "5") = false ∧
  default false (AUTO_CONVERT_MONEY Reference.env) = false ∧
  super_call Reference.env "__add__" Reference.price [VStr "5"] = Ok VNotImplemented ∧
  ∃ msg, outcome (__add__ Reference.env Reference.price (VStr "5"))
           = Raise (AttributeError msg) ∧
         outcome (__radd__ Reference.env Reference.price (VStr "5"))
           = Raise (AttributeError msg).
Proof.
  split; [reflexivity|]. split; [reflexivity|]. split; [reflexivity|].
  exact (plain_result_raises Reference.env Reference.price (VStr "5") VNotImplemented
           eq_refl eq_refl eq_refl eq_refl).
Defined.

(** X6.  [/] checks the class of the result before writing: a result of the
    base type that is not a Money (the decimal ratio of two Money values,
    [NotImplemented]) is returned as it is, after the one call of the base
    type. *)
Theorem truediv_passes_plain_result E (self : Money) (other t : PyVal) :
  isinstance_F other = false →
  super_call E "__truediv__" self [other] = Ok t →
  isinstance_Money t = false →
  __truediv__ E self other = ([mkEvent Base "__truediv__" [VMoney self; other]], Ok t).
Proof.
  intros Hother Hbase Ht. rewrite truediv_unfold by done.
  rewrite Hbase, bind_call_ok, Ht. reflexivity.
Qed.

Lemma truediv_passes_plain_result_witness :
  isinstance_F (VMoney Reference.fee) = false ∧
  __truediv__ (Scaling.env None) (mkMoney (DFinite false 75 (-1)) Reference.USD 3 None None)
      (VMoney Reference.fee) =
    ([mkEvent Base "__truediv__"
        [VMoney (mkMoney (DFinite false 75 (-1)) Reference.USD 3 None None);
         VMoney Reference.fee]],
     Ok (VDecimal (DFinite false 3 0))).
Proof.
  assert (super_call (Scaling.env None) "__truediv__"
            (mkMoney (DFinite false 75 (-1)) Reference.USD 3 None None)
            [VMoney Reference.fee] = Ok (VDecimal (DFinite false 3 0)))
    as Hratio by (vm_compute; reflexivity).
  split; [reflexivity|].
  exact (truediv_passes_plain_result (Scaling.env None)
           (mkMoney (DFinite false 75 (-1)) Reference.USD 3 None None)
           (VMoney Reference.fee) (VDecimal (DFinite false 3 0)) eq_refl Hratio eq_refl).
Defined.

(** X7.  An exception of the base type is the outcome of the operator that
    called it, unchanged, and nothing is returned: so for [*], [/],
    [round], [%], the sign operations, and for [+] and [-] with the
    auto-convert flag off, which is what adding or subtracting two Money
    values of different currencies comes to. *)
Theorem base_exception_propagates E (self : Money) (other : PyVal) (e : Exception) :
  (isinstance_F other = false →
     (super_call E "__mul__" self [other] = Raise e →
        outcome (__mul__ E self other) = Raise e) ∧
     (super_call E "__truediv__" self [other] = Raise e →
        outcome (__truediv__ E self other) = Raise e) ∧
     (default false (AUTO_CONVERT_MONEY E) = false →
        (super_call E "__add__" self [other] = Raise e →
           outcome (__add__ E self other) = Raise e) ∧
        (super_call E "__sub__" self [other] = Raise e →
           outcome (__sub__ E self other) = Raise e))) ∧
  (super_call E "round" self [other] = Raise e → outcome (round E self other) = Raise e) ∧
  (super_call E "__rmod__" self [other] = Raise e →
     outcome (__rmod__ E self other) = Raise e) ∧
  (super_call E "__pos__" self [] = Raise e → outcome (__pos__ E self) = Raise e) ∧
  (super_call E "__neg__" self [] = Raise e → outcome (__neg__ E self) = Raise e) ∧
  (super_call E "__abs__" self [] = Raise e → outcome (__abs__ E self) = Raise e).
Proof.
  split; [intros Hother; split; [|split; [|intros Hoff; split]]|repeat split];
    intros Hbase.
  - by rewrite mul_unfold, Hbase.
  - by rewrite truediv_unfold, Hbase.
  - by rewrite add_unfold, maybe_convert_disabled, bind_ret, Hbase.
  - by rewrite sub_unfold, maybe_convert_disabled, bind_ret, Hbase.
  - unfold round. by rewrite Hbase.
  - unfold __rmod__. by rewrite Hbase.
  - unfold __pos__. by rewrite Hbase.
  - unfold __neg__. by rewrite Hbase.
  - unfold __abs__. by rewrite Hbase.
Qed.

Lemma base_exception_propagates_witness :
  isinstance_F (VMoney Reference.fee_eur) = false ∧
  default false (AUTO_CONVERT_MONEY Reference.env) = false ∧
  outcome (__add__ Reference.env Reference.price (VMoney Reference.fee_eur)) =
    Raise (TypeError "Cannot add or subtract two Money instances with different currencies.") ∧
  outcome (__sub__ Reference.env Reference.price (VMoney Reference.fee_eur)) =
    Raise (TypeError "Cannot add or subtract two Money instances with different currencies.") ∧
  outcome (__mul__ Reference.env Reference.price (VMoney Reference.fee_eur)) =
    Raise (TypeError "Cannot multiply two Money instances.").
Proof.
  destruct (base_exception_propagates Reference.env Reference.price (VMoney Reference.fee_eur)
              (TypeError "Cannot add or subtract two Money instances with different currencies."))
    as [Hbinary _].
  destruct (Hbinary eq_refl) as (_ & _ & Hadditive).
  destruct (Hadditive eq_refl) as [Hadd Hsub].
  destruct (base_exception_propagates Reference.env Reference.price (VMoney Reference.fee_eur)
              (TypeError "Cannot multiply two Money instances."))
    as [Hscaling _].
  destruct (Hscaling eq_refl) as (Hmul & _).
  split; [reflexivity|]. split; [reflexivity|].
  split; [exact (Hadd eq_refl)|]. split; [exact (Hsub eq_refl)|].
  exact (Hmul eq_refl).
Defined.

(** ** Sign operations and the percentage *)

(** X8.  [+m], [-m], [abs(m)] and [other % m] return the Money of the base
    type with the [decimal_places] of [m].  In [other % m] the operand plays
    no part in the hint, whatever attribute it has, and an F instance gets no
    special treatment: it goes to the base type like any other operand. *)
Theorem sign_operations_keep_precision E (self : Money) :
  (∀ t, super_call E "__pos__" self [] = Ok (VMoney t) →
        outcome (__pos__ E self) = Ok (VMoney (set_decimal_places (decimal_places self) t))) ∧
  (∀ t, super_call E "__neg__" self [] = Ok (VMoney t) →
        outcome (__neg__ E self) = Ok (VMoney (set_decimal_places (decimal_places self) t))) ∧
  (∀ t, super_call E "__abs__" self [] = Ok (VMoney t) →
        outcome (__abs__ E self) = Ok (VMoney (set_decimal_places (decimal_places self) t))) ∧
  (∀ other t, super_call E "__rmod__" self [other] = Ok (VMoney t) →
        __rmod__ E self other =
          ([mkEvent Base "__rmod__" [VMoney self; other]],
           Ok (VMoney (set_decimal_places (decimal_places self) t)))).
Proof.
  repeat split; intros.
  - unfold __pos__. rewrite outcome_bind, outcome_call, H. by rewrite copy_attributes_self.
  - unfold __neg__. rewrite outcome_bind, outcome_call, H. by rewrite copy_attributes_self.
  - unfold __abs__. rewrite outcome_bind, outcome_call, H. by rewrite copy_attributes_self.
  - unfold __rmod__. rewrite H, bind_call_ok. by rewrite copy_attributes_self.
Qed.

Lemma sign_operations_keep_precision_witness :
  outcome (__pos__ (Scaling.env None) Reference.price) =
    Ok (VMoney (mkMoney Reference.d10_125 Reference.USD 3 None None)) ∧
  outcome (__neg__ (Scaling.env None) Reference.price) =
    Ok (VMoney (mkMoney (DFinite true 10125 (-3)) Reference.USD 3 None None)) ∧
  outcome (__abs__ (Scaling.env None) Reference.price) =
    Ok (VMoney (mkMoney Reference.d10_125 Reference.USD 3 None None)) ∧
  outcome (__rmod__ (Scaling.env None) Reference.price (VInt 20)) =
    Ok (VMoney (mkMoney (DFinite false 2025 (-3)) Reference.USD 3 None None)).
Proof.
  destruct (sign_operations_keep_precision (Scaling.env None) Reference.price)
    as (Hpos & Hneg & Habs & Hrmod).
  assert (super_call (Scaling.env None) "__pos__" Reference.price [] =
          Ok (VMoney (mkMoney Reference.d10_125 Reference.USD 2 None None)))
    as Hplus by (vm_compute; reflexivity).
  assert (super_call (Scaling.env None) "__neg__" Reference.price [] =
          Ok (VMoney (mkMoney (DFinite true 10125 (-3)) Reference.USD 2 None None)))
    as Hminus by (vm_compute; reflexivity).
  assert (super_call (Scaling.env None) "__abs__" Reference.price [] =
          Ok (VMoney (mkMoney Reference.d10_125 Reference.USD 2 None None)))
    as Habsolute by (vm_compute; reflexivity).
  assert (super_call (Scaling.env None) "__rmod__" Reference.price [VInt 20] =
          Ok (VMoney (mkMoney (DFinite false 2025 (-3)) Reference.USD 2 None None)))
    as Hpercent by (vm_compute; reflexivity).
  split; [exact (Hpos _ Hplus)|].
  split; [exact (Hneg _ Hminus)|].
  split; [exact (Habs _ Habsolute)|].
  exact (f_equal snd (Hrmod (VInt 20) _ Hpercent)).
Defined.

(** ** Conversion inside addition and subtraction *)

(** X9.  With the auto-convert flag set, [maybe_convert] reads the currency
    of the operand before anything else.  An operand without a [currency]
    attribute (a number, such as the [0] from which [sum] starts) makes [+]
    and [-] raise the attribute error of that read, and neither the exchange
    service nor the base type is called. *)
Theorem auto_convert_needs_currency E (self : Money) (other : PyVal) (e : Exception) :
  default false (AUTO_CONVERT_MONEY E) = true →
  isinstance_F other = false →
  getattr_currency other = Raise e →
  __add__ E self other = ([], Raise e) ∧
  __sub__ E self other = ([], Raise e) ∧
  __radd__ E self other = ([], Raise e).
Proof.
  intros Hon Hother Hcur.
  assert (maybe_convert E other (currency self) = ([], Raise e)) as Hconv.
  { unfold maybe_convert. by rewrite Hon, Hcur. }
  unfold __radd__. rewrite add_unfold, sub_unfold by done. by rewrite Hconv.
Qed.

Lemma auto_convert_needs_currency_witness :
  default false (AUTO_CONVERT_MONEY (Scaling.env (Some true))) = true ∧
  isinstance_F (VInt 0) = false ∧
  getattr_currency (VInt 0) = Raise (AttributeError "currency") ∧
  __add__ (Scaling.env (Some true)) Reference.price (VInt 0) =
    ([], Raise (AttributeError "currency")) ∧
  __sub__ (Scaling.env (Some true)) Reference.price (VInt 0) =
    ([], Raise (AttributeError "currency")) ∧
  __radd__ (Scaling.env (Some true)) Reference.price (VInt 0) =
    ([], Raise (AttributeError "currency")).
Proof.
  split; [reflexivity|]. split; [reflexivity|]. split; [reflexivity|].
  exact (auto_convert_needs_currency (Scaling.env (Some true)) Reference.price (VInt 0)
           (AttributeError "currency") eq_refl eq_refl eq_refl).
Defined.

(** X10.  With the auto-convert flag set and an operand of another currency,
    [+] first calls the exchange service.  If that raises, the exception
    passes through and the base type is not called.  If it returns [v], the
    base type adds [v], and the precision hint of the result is selected
    from [self] and [v]: the hint of the operand as it was before the
    conversion plays no part. *)
Theorem add_converts_first E (self : Money) (other : PyVal) (c : Currency) :
  default false (AUTO_CONVERT_MONEY E) = true →
  isinstance_F other = false →
  getattr_currency other = Ok c →
  c ≠ currency self →
  (∀ e, convert_money E other (currency self) = Raise e →
        __add__ E self other =
          ([mkEvent Exchange "convert_money" [other; VCurrency (currency self)]], Raise e)) ∧
  (∀ v t, convert_money E other (currency self) = Ok v →
          super_call E "__add__" self [v] = Ok (VMoney t) →
          __add__ E self other =
            ([mkEvent Exchange "convert_money" [other; VCurrency (currency self)];
              mkEvent Base "__add__" [VMoney self; v]],
             Ok (VMoney (set_decimal_places (selected_places self v) t)))).
Proof.
  intros Hon Hother Hcur Hne.
  assert (maybe_convert E other (currency self) =
          call Exchange "convert_money" [other; VCurrency (currency self)]
            (convert_money E other (currency self))) as Hconv.
  { unfold maybe_convert. rewrite Hon, Hcur. by rewrite bool_decide_eq_true_2. }
  rewrite add_unfold, Hconv by done. split.
  - by intros e ->.
  - intros v t -> Hbase. rewrite bind_call_ok, Hbase, trace_bind_call, outcome_bind_call.
    by rewrite copy_attributes_outcome, copy_attributes_trace.
Qed.

Lemma add_converts_first_witness :
  default false (AUTO_CONVERT_MONEY (Scaling.env (Some true))) = true ∧
  decimal_places Reference.price = 3 ∧ decimal_places Reference.fee_eur = 4 ∧
  outcome (__add__ (Scaling.env (Some true)) Reference.price (VMoney Reference.fee_eur)) =
    Ok (VMoney (mkMoney (DFinite false 12625 (-3)) Reference.USD 3 None None)) ∧
  __add__ (Reference.env_with_auto_convert true) Reference.price (VMoney Reference.fee_eur) =
    ([mkEvent Exchange "convert_money" [VMoney Reference.fee_eur; VCurrency Reference.USD]],
     Raise (OtherError "MissingRate" "")).
Proof.
  assert (Reference.EUR ≠ currency Reference.price) as Hne by discriminate.
  destruct (add_converts_first (Scaling.env (Some true)) Reference.price
              (VMoney Reference.fee_eur) Reference.EUR eq_refl eq_refl eq_refl Hne)
    as [_ Hok].
  destruct (add_converts_first (Reference.env_with_auto_convert true) Reference.price
              (VMoney Reference.fee_eur) Reference.EUR eq_refl eq_refl eq_refl Hne)
    as [Hfail _].
  split; [reflexivity|]. split; [reflexivity|]. split; [reflexivity|]. split.
  - exact (f_equal snd (Hok _ _ eq_refl eq_refl)).
  - exact (Hfail _ eq_refl).
Defined.

(** ** Chains of additions *)

Lemma add_step_places E (acc m acc' : Money) :
  default false (AUTO_CONVERT_MONEY E) = false →
  outcome (__add__ E acc (VMoney m)) = Ok (VMoney acc') →
  decimal_places acc' = Z.max (decimal_places acc) (decimal_places m).
Proof.
  intros Hoff H.
  rewrite add_unfold in H by done.
  rewrite (maybe_convert_disabled E _ _ Hoff), bind_ret in H.
  by apply propagated_inv in H as (t & _ & ->).
Qed.

(** X11.  With the auto-convert flag off, a chain of additions
    [((acc + m1) + m2) + ...] that returns a Money at every step ends with
    the largest precision hint of all its operands, however long it is and
    whatever the base type computes. *)
Theorem chained_additions_take_maximum E (acc r : Money) (ms : list Money) :
  default false (AUTO_CONVERT_MONEY E) = false →
  Added E acc ms r →
  decimal_places r = foldl Z.max (decimal_places acc) (decimal_places <$> ms).
Proof.
  intros Hoff Hchain. induction Hchain as [acc|acc m acc' r ms Hstep Hrest IH].
  - reflexivity.
  - rewrite IH. simpl. by rewrite (add_step_places E acc m acc' Hoff Hstep).
Qed.

Lemma chained_additions_take_maximum_witness :
  default false (AUTO_CONVERT_MONEY Reference.env) = false ∧
  Added Reference.env Reference.fee [Reference.price; Reference.fee]
    (mkMoney (DFinite false 15125 (-3)) Reference.USD 4 None None) ∧
  decimal_places (mkMoney (DFinite false 15125 (-3)) Reference.USD 4 None None) =
    foldl Z.max 4 [3; 4].
Proof.
  assert (Added Reference.env Reference.fee [Reference.price; Reference.fee]
            (mkMoney (DFinite false 15125 (-3)) Reference.USD 4 None None)) as Hchain.
  { eapply Added_cons; [reflexivity|].
    eapply Added_cons; [reflexivity|]. apply Added_nil. }
  split; [reflexivity|]. split; [exact Hchain|].
  exact (chained_additions_take_maximum Reference.env _ _ _ eq_refl Hchain).
Defined.

(** ** Quantization with an explicit exponent, and what the results forget *)

Lemma quantize_unfold_explicit E (m : Money) (exp : PyVal) (rounding : option Rounding) :
  exp ≠ VNone →
  quantize E m exp rounding =
    (d ← call DecimalLib "Decimal" [exp] (decimal_new E exp);
     q ← call DecimalLib "quantize"
           [VDecimal (amount m); VDecimal d;
            VStr (rounding_name (default ROUND_HALF_UP rounding))]
           (decimal_quantize E (amount m) d (default ROUND_HALF_UP rounding));
     new ← __init__ E (VDecimal q) (VCurrency (currency m)) None None [];
     mret (VMoney new)).
Proof. intros Hexp. destruct exp; try done; by destruct rounding. Qed.

Lemma init_outcome E (amount0 currency0 : PyVal) (fo : option ref) (dp : option Z)
    (kwargs : list (string * PyVal)) :
  __init__ E amount0 currency0 fo dp kwargs =
  ([mkEvent Base "__init__" [amount0; currency0]],
   match super_init E amount0 currency0 kwargs with
   | Ok (a, c) => Ok (mkMoney a c (default (DECIMAL_PLACES E) dp) (mkProxy <$> fo) None)
   | Raise e => Raise e
   end).
Proof.
  unfold __init__. destruct (super_init E amount0 currency0 kwargs) as [[a c]|e];
    [|reflexivity].
  by destruct dp, fo.
Qed.

(** X12.  Whatever the exponent and the rounding mode, a Money returned by
    [quantize] carries none of the metadata of the original: its
    [decimal_places] is the process-wide default, it has no format options,
    and it has no localization override, so that [is_localized] on it is the
    process-wide setting.  The result is the same for every Money with that
    amount and currency, whatever its own metadata. *)
Theorem quantize_resets_metadata E (m : Money) (exp r : PyVal) (rounding : option Rounding) :
  outcome (quantize E m exp rounding) = Ok r →
  ∃ new, r = VMoney new ∧
    decimal_places new = DECIMAL_PLACES E ∧
    format_options new = None ∧
    is_localized E new = default true (USE_L10N E) ∧
    ∀ dp fo l10n,
      outcome (quantize E (mkMoney (amount m) (currency m) dp fo l10n) exp rounding) = Ok r.
Proof.
  intros H. pose proof H as Hrun.
  unfold quantize in H. rewrite outcome_bind in H.
  match type of H with
  | match outcome ?pre with _ => _ end = _ => destruct (outcome pre) as [d|e]
  end; [|discriminate].
  rewrite outcome_bind, outcome_call in H.
  match type of H with
  | match ?quantized with _ => _ end = _ => destruct quantized as [q|e]
  end; [|discriminate].
  rewrite outcome_bind, init_outcome in H. simpl in H.
  destruct (super_init E (VDecimal q) (VCurrency (currency m)) []) as [[a c]|e];
    [|discriminate].
  simpl in H. injection H as <-.
  eexists. split; [reflexivity|].
  split; [reflexivity|]. split; [reflexivity|]. split; [reflexivity|].
  intros dp fo l10n. exact Hrun.
Qed.

Lemma quantize_resets_metadata_witness :
  is_localized Reference.env (mkMoney Reference.d10_125 Reference.USD 3 None (Some false))
    = false ∧
  ∃ new,
    outcome (quantize Reference.env
               (mkMoney Reference.d10_125 Reference.USD 3 None (Some false)) VNone None)
      = Ok (VMoney new) ∧
    decimal_places new = 2 ∧ is_localized Reference.env new = true.
Proof.
  split; [reflexivity|].
  destruct (quantize_resets_metadata Reference.env
              (mkMoney Reference.d10_125 Reference.USD 3 None (Some false)) VNone
              (VMoney (mkMoney (DFinite false 1013 (-2)) Reference.USD 2 None None)) None
              eq_refl) as (new & Hnew & Hplaces & _ & Hl10n & _).
  exists new. split; [by rewrite <- Hnew|]. split; [exact Hplaces | exact Hl10n].
Defined.

(** X13.  With an explicit exponent [quantize] does not consult the currency
    metadata: the exponent is [Decimal(exp)], the rounding mode is the one
    given ([ROUND_HALF_UP] when none is), and no call goes to babel.  When
    [Decimal(exp)] raises, that exception is the outcome and nothing is
    quantized. *)
Theorem quantize_explicit_exponent E (m : Money) (exp : PyVal) (rounding : option Rounding) :
  exp ≠ VNone →
  calls_to Babel (trace (quantize E m exp rounding)) = [] ∧
  (∀ e, decimal_new E exp = Raise e →
        quantize E m exp rounding = ([mkEvent DecimalLib "Decimal" [exp]], Raise e)) ∧
  (∀ d q a c,
     decimal_new E exp = Ok d →
     decimal_quantize E (amount m) d (default ROUND_HALF_UP rounding) = Ok q →
     super_init E (VDecimal q) (VCurrency (currency m)) [] = Ok (a, c) →
     outcome (quantize E m exp rounding) =
       Ok (VMoney (mkMoney a c (DECIMAL_PLACES E) None None))).
Proof.
  intros Hexp. rewrite quantize_unfold_explicit by done. repeat split.
  - rewrite trace_bind, outcome_call, trace_call.
    destruct (decimal_new E exp) as [d|e]; [|reflexivity].
    rewrite trace_bind, outcome_call, trace_call.
    destruct (decimal_quantize E (amount m) d (default ROUND_HALF_UP rounding)) as [q|e];
      [|reflexivity].
    rewrite trace_bind, init_outcome. simpl.
    by destruct (super_init E (VDecimal q) (VCurrency (currency m)) []) as [[a c]|e].
  - by intros e ->.
  - intros d q a c Hnew Hquant Hinit.
    rewrite Hnew, outcome_bind_call, Hquant, outcome_bind_call, init_outcome, Hinit.
    reflexivity.
Qed.

Lemma quantize_explicit_exponent_witness :
  VStr "0.1" ≠ VNone ∧
  outcome (quantize Reference.env Reference.price (VStr "0.1") None) =
    Ok (VMoney (mkMoney (DFinite false 101 (-1)) Reference.USD 2 None None)) ∧
  outcome (quantize Reference.env Reference.price (VDecimal Decimal_0_1) (Some ROUND_UP)) =
    Ok (VMoney (mkMoney (DFinite false 102 (-1)) Reference.USD 2 None None)) ∧
  quantize Reference.env Reference.price (VStr "a tenth") None =
    ([mkEvent DecimalLib "Decimal" [VStr "a tenth"]], Raise InvalidOperation).
Proof.
  assert (VStr "0.1" ≠ VNone) as Htext by discriminate.
  assert (VDecimal Decimal_0_1 ≠ VNone) as Hdec by discriminate.
  assert (VStr "a tenth" ≠ VNone) as Hwords by discriminate.
  destruct (quantize_explicit_exponent Reference.env Reference.price (VStr "0.1") None Htext)
    as (_ & _ & Htenth).
  destruct (quantize_explicit_exponent Reference.env Reference.price (VDecimal Decimal_0_1)
              (Some ROUND_UP) Hdec) as (_ & _ & Hup).
  destruct (quantize_explicit_exponent Reference.env Reference.price (VStr "a tenth") None
              Hwords) as (_ & Hfail & _).
  split; [exact Htext|].
  split; [exact (Htenth Decimal_0_1 (DFinite false 101 (-1)) (DFinite false 101 (-1))
                   Reference.USD eq_refl eq_refl eq_refl)|].
  split; [exact (Hup Decimal_0_1 (DFinite false 102 (-1)) (DFinite false 102 (-1))
                   Reference.USD eq_refl eq_refl eq_refl)|].
  exact (Hfail InvalidOperation eq_refl).
Defined.

(** X14.  A Money returned by the built-in [round] keeps the precision hint
    of the original and nothing else of its metadata: it has no format
    options and no localization override, so that [is_localized] on it is
    the process-wide setting even when the original overrides it. *)
Theorem builtin_round_forgets_override E (m : Money) (n r : PyVal) :
  outcome (__round__ E m n) = Ok r →
  ∃ new, r = VMoney new ∧
    decimal_places new = decimal_places m ∧
    format_options new = None ∧
    is_localized E new = default true (USE_L10N E).
Proof.
  unfold __round__. rewrite outcome_bind, outcome_call.
  destruct (builtin_round E (amount m) n) as [rounded|e]; [|discriminate].
  rewrite outcome_bind, init_outcome, outcome_pair.
  destruct (super_init E rounded (VCurrency (currency m)) []) as [[a c]|e]; [|discriminate].
  rewrite copy_attributes_self, outcome_mret. intros [= <-].
  eexists. split; [reflexivity|]. repeat split.
Qed.

Lemma builtin_round_forgets_override_witness :
  is_localized Reference.env (mkMoney Reference.d10_125 Reference.USD 3 None (Some false))
    = false ∧
  ∃ new,
    outcome (__round__ Reference.env
               (mkMoney Reference.d10_125 Reference.USD 3 None (Some false)) (VInt 1))
      = Ok (VMoney new) ∧
    decimal_places new = 3 ∧ is_localized Reference.env new = true.
Proof.
  split; [reflexivity|].
  destruct (builtin_round_forgets_override Reference.env
              (mkMoney Reference.d10_125 Reference.USD 3 None (Some false)) (VInt 1)
              (VMoney (mkMoney (DFinite false 101 (-1)) Reference.USD 3 None None))
              eq_refl) as (new & Hnew & Hplaces & _ & Hl10n).
  exists new. split; [by rewrite <- Hnew|]. split; [exact Hplaces | exact Hl10n].
Defined.

(** ** The options handed to the formatter *)

(** X15.  For every option but [locale], [__str__] hands the formatter the
    value of the instance when the instance has that option, and the value
    of the process-wide [MONEY_FORMAT] otherwise.  The same holds for
    [locale] when no locale is current. *)
Theorem str_options_precedence E (h : store) (m : Money) (k : string) :
  k ≠ "locale" ∨ get_current_locale E = "" →
  str_format_options E h m !! k =
    match own_options h m !! k with
    | Some v => Some v
    | None => MONEY_FORMAT E !! k
    end.
Proof.
  intros Hk. unfold str_format_options. fold (own_options h m).
  assert ((own_options h m ∪ MONEY_FORMAT E) !! k =
          match own_options h m !! k with
          | Some v => Some v
          | None => MONEY_FORMAT E !! k
          end) as Hmerged.
  { rewrite lookup_union.
    destruct (own_options h m !! k), (MONEY_FORMAT E !! k); reflexivity. }
  case_bool_decide as Hlocale; [done|].
  destruct Hk as [Hk|Hk]; [|done].
  by rewrite lookup_insert_ne.
Qed.

Lemma str_options_precedence_witness :
  str_format_options (Scaling.env None) Reference.options Reference.price !! "format"
    = Some (FStr "#,##0.00") ∧
  str_format_options (Scaling.env None)
    (Mapping.dict_setitem Reference.options 1%positive "format" (FStr "#0")) Reference.price
    !! "format" = Some (FStr "#0").
Proof.
  assert ("format" ≠ "locale") as Hne by discriminate.
  split.
  - exact (str_options_precedence (Scaling.env None) Reference.options Reference.price
             "format" (or_introl Hne)).
  - exact (str_options_precedence (Scaling.env None)
             (Mapping.dict_setitem Reference.options 1%positive "format" (FStr "#0"))
             Reference.price "format" (or_introl Hne)).
Defined.

(** X16.  Whenever a locale is current, the [locale] handed to the formatter
    is that one: it replaces both the [locale] of the process-wide
    [MONEY_FORMAT] and a [locale] given in the format options of the
    instance. *)
Theorem str_locale_is_current E (h : store) (m : Money) :
  get_current_locale E ≠ "" →
  str_format_options E h m !! "locale" = Some (FStr (get_current_locale E)) ∧
  __str__ E h m =
    call Babel "format_money" [VMoney m]
      (format_money E m (<["locale" := FStr (get_current_locale E)]>
                           (own_options h m ∪ MONEY_FORMAT E))).
Proof.
  intros Hlocale. unfold __str__, str_format_options. fold (own_options h m).
  rewrite bool_decide_eq_false_2 by done.
  split; [apply lookup_insert_eq | reflexivity].
Qed.

Lemma str_locale_is_current_witness :
  get_current_locale (Scaling.env None) ≠ "" ∧
  own_options Reference.options Reference.price !! "locale" = Some (FStr "de_DE") ∧
  str_format_options (Scaling.env None) Reference.options Reference.price !! "locale"
    = Some (FStr "de").
Proof.
  assert (get_current_locale (Scaling.env None) ≠ "") as Hlocale by discriminate.
  split; [exact Hlocale|]. split; [reflexivity|].
  exact (proj1 (str_locale_is_current (Scaling.env None) Reference.options Reference.price
                  Hlocale)).
Defined.

(** X17.  [__str__] reads the format options of the instance when it is
    called, through the proxy: an option other than [locale] that the caller
    sets in the dictionary after the Money was built is the value the
    formatter gets, in place of the earlier value and of the process-wide
    one. *)
Theorem str_follows_the_dictionary E (h : store) (m : Money) (d : ref) (k : string)
    (v : FmtVal) :
  format_options m = Some (mkProxy d) →
  k ≠ "locale" →
  str_format_options E (Mapping.dict_setitem h d k v) m !! k = Some v.
Proof.
  intros Hproxy Hk. rewrite str_options_precedence by auto.
  unfold own_options, Mapping.proxy_items, Mapping.dict_setitem. rewrite Hproxy. simpl.
  rewrite lookup_insert_eq. simpl. by rewrite lookup_insert_eq.
Qed.

Lemma str_follows_the_dictionary_witness :
  format_options Reference.price = Some (mkProxy 1%positive) ∧
  str_format_options (Scaling.env None) Reference.options Reference.price !! "format"
    = Some (FStr "#,##0.00") ∧
  str_format_options (Scaling.env None)
    (Mapping.dict_setitem Reference.options 1%positive "format" (FStr "#0")) Reference.price
    !! "format" = Some (FStr "#0").
Proof.
  assert ("format" ≠ "locale") as Hne by discriminate.
  split; [reflexivity|]. split; [reflexivity|].
  exact (str_follows_the_dictionary (Scaling.env None) Reference.options Reference.price
           1%positive "format" (FStr "#0") eq_refl Hne).
Defined.

(** ** Reflected addition and multiplication *)

Lemma maybe_convert_exchange_calls E (v : PyVal) (c : Currency) :
  calls_to Exchange (trace (maybe_convert E v c)) =
    (if default false (AUTO_CONVERT_MONEY E) && currency_differs v c
     then [mkEvent Exchange "convert_money" [v; VCurrency c]]
     else []).
Proof.
  unfold maybe_convert, currency_differs.
  destruct (default false (AUTO_CONVERT_MONEY E)); [|reflexivity].
  destruct (getattr_currency v) as [cv|e]; [|reflexivity].
  simpl. destruct (bool_decide (cv ≠ c)); reflexivity.
Qed.

Lemma maybe_convert_unchanged E (v : PyVal) (c : Currency) :
  default false (AUTO_CONVERT_MONEY E) = false ∨ getattr_currency v = Ok c →
  maybe_convert E v c = mret v.
Proof.
  intros [Hoff|Hsame]; [by apply maybe_convert_disabled|].
  unfold maybe_convert. destruct (default false (AUTO_CONVERT_MONEY E)); [|done].
  rewrite Hsame. by rewrite bool_decide_eq_false_2 by (by intros Hne).
Qed.

(** C10.  [__radd__] and [__rmul__] are the [__add__] and [__mul__] of this
    class, not the operators the base type bound under those names.  For an
    operand [x] that is not an F instance, [x + m] evaluated through [m]
    runs the conversion guard (the exchange service is called exactly when
    the flag is set and the currency of [x] differs from that of [m]), and
    where the guard leaves [x] as it is and the base type returns a Money,
    the result is that Money with the precision hint selected from [m] and
    [x]; [x * m] returns the product of the base type with the hint
    selected from [m] and [x].  The operators of the base type alone would
    return its Money with the hint it was built with. *)
Theorem reflected_are_forward E (m : Money) (x : PyVal) :
  isinstance_F x = false →
  __radd__ E m x = __add__ E m x ∧
  __rmul__ E m x = __mul__ E m x ∧
  calls_to Exchange (trace (__radd__ E m x)) =
    (if default false (AUTO_CONVERT_MONEY E) && currency_differs x (currency m)
     then [mkEvent Exchange "convert_money" [x; VCurrency (currency m)]]
     else []) ∧
  (∀ t, default false (AUTO_CONVERT_MONEY E) = false ∨ getattr_currency x = Ok (currency m) →
        super_call E "__add__" m [x] = Ok (VMoney t) →
        outcome (__radd__ E m x) =
          Ok (VMoney (set_decimal_places (selected_places m x) t))) ∧
  (∀ t, super_call E "__mul__" m [x] = Ok (VMoney t) →
        outcome (__rmul__ E m x) =
          Ok (VMoney (set_decimal_places (selected_places m x) t))).
Proof.
  intros Hx. unfold __radd__, __rmul__.
  split; [reflexivity|]. split; [reflexivity|]. split; [|split].
  - rewrite add_unfold, trace_bind, calls_to_app by done.
    rewrite maybe_convert_exchange_calls.
    destruct (outcome (maybe_convert E x (currency m))) as [o|e];
      [|by rewrite app_nil_r].
    rewrite trace_bind, outcome_call, trace_call.
    destruct (super_call E "__add__" m [o]) as [t|e].
    + rewrite copy_attributes_trace. by rewrite app_nil_r.
    + by rewrite app_nil_r.
  - intros t Hguard Hbase.
    rewrite add_unfold, maybe_convert_unchanged, bind_ret by done.
    by rewrite outcome_bind, outcome_call, Hbase, copy_attributes_outcome.
  - intros t Hbase.
    rewrite mul_unfold by done.
    by rewrite outcome_bind, outcome_call, Hbase, copy_attributes_outcome.
Qed.

Lemma reflected_are_forward_witness :
  isinstance_F (VMoney Reference.fee) = false ∧
  super_call Reference.env "__add__" Reference.price [VMoney Reference.fee] =
    Ok (VMoney (mkMoney (DFinite false 12625 (-3)) Reference.USD 2 None None)) ∧
  outcome (__radd__ Reference.env Reference.price (VMoney Reference.fee)) =
    Ok (VMoney (mkMoney (DFinite false 12625 (-3)) Reference.USD 4 None None)) ∧
  super_call Reference.env "__mul__" Reference.price [VInt 3] =
    Ok (VMoney (mkMoney (DFinite false 30375 (-3)) Reference.USD 2 None None)) ∧
  outcome (__rmul__ Reference.env Reference.price (VInt 3)) =
    Ok (VMoney (mkMoney (DFinite false 30375 (-3)) Reference.USD 3 None None)) ∧
  calls_to Exchange
    (trace (__radd__ (Scaling.env (Some true)) Reference.price (VMoney Reference.fee_eur))) =
    [mkEvent Exchange "convert_money" [VMoney Reference.fee_eur; VCurrency Reference.USD]].
Proof.
  assert (super_call Reference.env "__add__" Reference.price [VMoney Reference.fee] =
          Ok (VMoney (mkMoney (DFinite false 12625 (-3)) Reference.USD 2 None None)))
    as Hsum by (vm_compute; reflexivity).
  assert (super_call Reference.env "__mul__" Reference.price [VInt 3] =
          Ok (VMoney (mkMoney (DFinite false 30375 (-3)) Reference.USD 2 None None)))
    as Hproduct by (vm_compute; reflexivity).
  destruct (reflected_are_forward Reference.env Reference.price (VMoney Reference.fee)
              eq_refl) as (_ & _ & _ & Hadd & _).
  destruct (reflected_are_forward Reference.env Reference.price (VInt 3) eq_refl)
    as (_ & _ & _ & _ & Hmul).
  destruct (reflected_are_forward (Scaling.env (Some true)) Reference.price
              (VMoney Reference.fee_eur) eq_refl) as (_ & _ & Hguard & _).
  split; [reflexivity|]. split; [exact Hsum|].
  split; [exact (Hadd _ (or_introl eq_refl) Hsum)|].
  split; [exact Hproduct|].
  split; [exact (Hmul _ Hproduct)|].
  exact Hguard.
Defined.
